(** * typing_schema: conversion of Python type annotations to schema dicts

    A shallow embedding of [typing_schema/converter.py] (class [_Converter])
    and of the entry points of [typing_schema/__init__.py], followed by the
    properties of the conversion.

    - A type annotation is a term of [pytype]; the constructors are the
      classes of objects that the predicates of converter.py tell apart
      ([_is_union], [_is_array], [_is_annotated], [_is_literal], [_is_enum],
      [is_typeddict]/[is_dataclass], [_is_dict], [callable]).
    - A schema is a Python dict ([model.py] only declares TypedDicts, which
      are plain dicts at run time): an insertion-ordered association list
      from keys to Python values.
    - [raise ValueError(...)] is the [Err] result.
    - The recursion of [_convert_core] is bounded by a depth, the number of
      calls of [_convert_core] that may nest; a call with none left is cut
      off with [RecursionError]. The interpreter's own limit counts every
      frame, several for each nested call, so that a limit corresponds to a
      smaller depth; no statement below depends on which.
    - An annotation is a finite term: a callable is given by the parameters
      [inspect.signature] reads, so that callables whose signature cannot be
      read, and callables reached again through the type of their own
      default value, have no term. *)

From Stdlib Require Import String List Bool Arith Lia ZArith.
Import ListNotations.
Local Open Scope string_scope.
Local Open Scope list_scope.
Set Warnings "-register-all".

(** ** Python values and type annotations *)

(** [inspect.Parameter.kind]; the loop of [_convert_function] skips the two
    variadic kinds. *)
Inductive param_kind : Type :=
| POSITIONAL_ONLY
| POSITIONAL_OR_KEYWORD
| VAR_POSITIONAL
| KEYWORD_ONLY
| VAR_KEYWORD.

(** [inspect.Parameter]: [annotation] and [default] are [None] when they are
    [inspect.Parameter.empty]. *)
Record parameter (T V : Type) : Type := MkParam {
  name : string;
  kind : param_kind;
  annotation : option T;
  default : option V
}.
Arguments MkParam {T V} _ _ _ _.
Arguments name {T V} _.
Arguments kind {T V} _.
Arguments annotation {T V} _.
Arguments default {T V} _.

(** The origins [get_origin] can report for a subscripted builtin container. *)
Inductive origin : Type := Olist | Otuple | Oset | Odict.

Inductive pytype : Type :=
| Tstr                                   (* str *)
| Tint                                   (* int *)
| Tfloat                                 (* float *)
| Tbool                                  (* bool *)
| Tdict                                  (* dict, not subscripted *)
| Tlist                                  (* list, not subscripted *)
| TNoneType                              (* type(None) *)
| TUnion (args : list pytype)            (* Union[...] or X | Y, by get_args; typing
                                            builds one of two or more members *)
| TGeneric (o : origin) (args : list pytype)  (* list[...], tuple[...], set[...], dict[...] *)
| TAnnotated (inner : pytype) (metadata : list value)  (* Annotated[inner, *metadata] *)
| TLiteral (args : list value)           (* Literal[...] *)
| TEnum (values : list value)            (* enum.Enum subclass, the members' values in order *)
| TRecord (doc : option string) (annotations : list (string * pytype))
                                         (* TypedDict or dataclass: __doc__, __annotations__ *)
| TCallable (doc : option string) (parameters : list (parameter pytype value))
                                         (* any other callable with a readable signature:
                                            __doc__, inspect.signature(...).parameters *)
| TOther (repr : string)                 (* any other object; repr is str(object) *)
with value : Type :=
| VNone
| VBool (b : bool)
| VInt (z : Z)
| VFloat (literal : string)              (* a float, kept as its literal; never computed on *)
| VStr (s : string)
| VList (items : list value)
| VDict (items : list (string * value))
| VObj (cls : pytype) (repr : string).   (* an instance of any other class *)

Definition param : Type := parameter pytype value.

(** A Python dict with string keys, in insertion order. *)
Definition dict : Type := list (string * value).

(** ** Dict operations *)

(** [k in d] *)
Fixpoint dict_has (k : string) (d : dict) : bool :=
  match d with
  | [] => false
  | (k', _) :: d' => if String.eqb k k' then true else dict_has k d'
  end.

(** [d.get(k)] *)
Fixpoint dict_get (k : string) (d : dict) : option value :=
  match d with
  | [] => None
  | (k', v) :: d' => if String.eqb k k' then Some v else dict_get k d'
  end.

(** [d[k] = v]: an existing key keeps its position, a new key goes last. *)
Fixpoint dict_set (k : string) (v : value) (d : dict) : dict :=
  match d with
  | [] => [(k, v)]
  | (k', v') :: d' =>
      if String.eqb k k' then (k', v) :: d' else (k', v') :: dict_set k v d'
  end.

(** Truth value of a dict-or-None ([if custom_schema:]). *)
Definition truthy_dict (d : option dict) : bool :=
  match d with
  | Some (_ :: _) => true
  | _ => false
  end.

(** Truth value of a str-or-None ([if doc:]). *)
Definition truthy_str (s : option string) : bool :=
  match s with
  | Some EmptyString => false
  | Some _ => true
  | None => false
  end.

(** [x == s] for a string literal [s]. *)
Definition value_eq_str (x : value) (s : string) : bool :=
  match x with
  | VStr s' => String.eqb s' s
  | _ => false
  end.

(** ** Results *)

Inductive error : Type :=
| ValueError (msg : string)
| KeyError (key : string)
| RecursionError.

Inductive result (A : Type) : Type :=
| Ok (a : A)
| Err (e : error).
Arguments Ok {A} _.
Arguments Err {A} _.

Definition bind {A B : Type} (r : result A) (k : A -> result B) : result B :=
  match r with
  | Ok a => k a
  | Err e => Err e
  end.

Notation "x <- r ;; k" := (bind r (fun x => k))
  (at level 61, r at next level, right associativity).
Notation "' p <- r ;; k" := (bind r (fun x => let p := x in k))
  (at level 61, p pattern, r at next level, right associativity).

Section MapM.
Context {A B : Type} (f : A -> result B).

(** A list comprehension whose body may raise: the first error wins. *)
Fixpoint mapM (l : list A) : result (list B) :=
  match l with
  | [] => Ok []
  | a :: l' => b <- f a ;; bs <- mapM l' ;; Ok (b :: bs)
  end.
End MapM.

(** ** The schema constructors of model.py

    Keyword arguments of a TypedDict call become the keys, in call order. *)

Definition ValueSchema (type : value) : dict := [("type", type)].
Definition ArraySchema (items : dict) : dict :=
  [("type", VStr "array"); ("items", VDict items)].
Definition ObjectSchema_bare : dict := [("type", VStr "object")].
Definition ObjectSchema (properties : dict) (required : list value) : dict :=
  [("type", VStr "object"); ("properties", VDict properties);
   ("required", VList required)].
Definition ConstraintSchema (const : value) : dict := [("const", const)].
Definition EnumSchema (enum : list value) : dict := [("enum", VList enum)].
Definition OneOfSchema (oneOf : list dict) : dict :=
  [("oneOf", VList (map VDict oneOf))].

(** ** The converter *)

(** [_hande_annotated_doc]: the first [str] of [args[1:]], where [args] is
    the tuple [get_args] returns for an [Annotated] type, the wrapped type
    first and the metadata after it. *)
Fixpoint first_str (args : list value) : option string :=
  match args with
  | [] => None
  | VStr s :: _ => Some s
  | _ :: rest => first_str rest
  end.

Definition _hande_annotated_doc (args : pytype * list value) : option string :=
  first_str (snd args).

(** The attributes [__init__] sets. The two handlers are functions of the
    annotation (for the doc handler, of the tuple of [get_args]); a handler
    that raises, or that hands out one shared dict several times, is outside
    the model.

    [model_json_schema] is not an attribute of the converter: it tells which
    objects have a [model_json_schema] attribute ([hasattr]) and what calling
    it returns. It is kept here so that one record fixes a whole run. *)
Record _Converter : Type := {
  to_doc : pytype * list value -> option string;
  _raise_when_unsupported : bool;
  _type_handler : option (pytype -> option dict);
  _enable_pydantic : bool;
  model_json_schema : pytype -> option dict
}.

(** [_Converter.__init__], with what [find_spec("pydantic") is not None]
    and [hasattr(_, "model_json_schema")] answer in the running interpreter. *)
Definition __init__ (pydantic_found : bool)
    (has_model_json_schema : pytype -> option dict)
    (raise_when_unsupported : bool)
    (type_handler : option (pytype -> option dict))
    (annotated_doc_handler : option (pytype * list value -> option string))
  : _Converter :=
  {| to_doc := match annotated_doc_handler with
               | Some handler => handler
               | None => _hande_annotated_doc
               end;
     _raise_when_unsupported := raise_when_unsupported;
     _type_handler := type_handler;
     _enable_pydantic := pydantic_found;
     model_json_schema := has_model_json_schema |}.

(** [_convert_pydantic_model] *)
Definition _convert_pydantic_model (self : _Converter) (model : pytype)
  : option dict :=
  if _enable_pydantic self then model_json_schema self model else None.

(** [_is_union]: the origin of the annotation is [Union] or [UnionType]. *)
Definition _is_union (annotation : pytype) : bool :=
  match annotation with
  | TUnion _ => true
  | _ => false
  end.

(** [type(None) in annotations] *)
Definition is_NoneType (t : pytype) : bool :=
  match t with
  | TNoneType => true
  | _ => false
  end.

(** ["type" in s.keys() and s["type"] not in ["array", "object"]] *)
Definition has_scalar_type (s : dict) : bool :=
  match dict_get "type" s with
  | Some t => negb (value_eq_str t "array" || value_eq_str t "object")
  | None => false
  end.

(** [s["type"]] *)
Definition getitem (k : string) (s : dict) : result value :=
  match dict_get k s with
  | Some v => Ok v
  | None => Err (KeyError k)
  end.

(** [type(x)] of a default value. *)
Definition type_of (x : value) : pytype :=
  match x with
  | VNone => TNoneType
  | VBool _ => Tbool
  | VInt _ => Tint
  | VFloat _ => Tfloat
  | VStr _ => Tstr
  | VList _ => Tlist
  | VDict _ => Tdict
  | VObj cls _ => cls
  end.

Definition is_empty {A : Type} (o : option A) : bool :=
  match o with
  | None => true
  | Some _ => false
  end.

(** The condition of the [continue] in [_convert_function]. *)
Definition skipped (p : param) : bool :=
  match kind p with
  | VAR_POSITIONAL | VAR_KEYWORD => true
  | _ => String.eqb (name p) "self"
  end.

(** [obj_schema["description"] = doc] under [if doc:]. *)
Definition with_doc (doc : option string) (obj_schema : dict) : dict :=
  match doc with
  | Some d => if truthy_str doc then dict_set "description" (VStr d) obj_schema
              else obj_schema
  | None => obj_schema
  end.

(** The result of the hook when it is set and returns a truthy schema. *)
Definition custom_schema (self : _Converter) (object : pytype) : option dict :=
  match _type_handler self with
  | Some handler => if truthy_dict (handler object) then handler object else None
  | None => None
  end.

(** The result of the pydantic delegate when it returns a truthy schema. *)
Definition pydantic_schema (self : _Converter) (object : pytype) : option dict :=
  if _enable_pydantic self then
    if truthy_dict (_convert_pydantic_model self object)
    then _convert_pydantic_model self object else None
  else None.

Section Recursion.
(** [self] and the recursive call [self._convert_core], which the three
    methods below share. *)
Variable self : _Converter.
Variable core : pytype -> result (dict * bool).

(** [_convert_union] *)
Definition _convert_union (annotations : list pytype)
  : result (dict * bool) :=
  let require := negb (existsb is_NoneType annotations) in
  match annotations with
  | [] => Ok (ValueSchema (VStr "null"), false)
  | [a] => r <- core a ;; Ok (fst r, require)
  | _ =>
      schemas <- mapM (fun ann => r <- core ann ;; Ok (fst r)) annotations ;;
      if forallb has_scalar_type schemas then
        types <- mapM (getitem "type") schemas ;;
        Ok (ValueSchema (VList types), require)
      else Ok (OneOfSchema schemas, require)
  end.

(** The annotation the loop of [_convert_function] converts for a
    parameter. *)
Definition test_annotation (p : param) : result pytype :=
  match annotation p with
  | Some a => Ok a
  | None =>
      match default p with
      | Some d => Ok (type_of d)
      | None =>
          if negb (_raise_when_unsupported self) then Ok Tdict
          else Err (ValueError
                 ("Parameter '" ++ name p ++ "' is missing a type annotation."))
      end
  end.

(** The [for] loop of [_convert_function], with the two accumulators. *)
Fixpoint function_loop (params : list param) (properties : dict)
    (required : list value) : result (dict * list value) :=
  match params with
  | [] => Ok (properties, required)
  | p :: rest =>
      if skipped p then function_loop rest properties required
      else
        ann <- test_annotation p ;;
        r <- core ann ;;
        let schema :=
          match default p with
          | Some d => dict_set "default" d (fst r)
          | None => fst r
          end in
        let properties := dict_set (name p) (VDict schema) properties in
        let required :=
          if snd r && is_empty (default p)
          then required ++ [VStr (name p)] else required in
        function_loop rest properties required
  end.

(** [_convert_function], of the two things it reads from [func]: its
    [__doc__] and the parameters of its signature. *)
Definition _convert_function (doc : option string) (parameters : list param)
  : result (dict * bool) :=
  pr <- function_loop parameters [] [] ;;
  Ok (with_doc doc (ObjectSchema (fst pr) (snd pr)), true).

(** The [for] loop over [__annotations__] of a TypedDict or dataclass. *)
Fixpoint record_loop (annotations : list (string * pytype))
    (properties : dict) (required_items : list value)
  : result (dict * list value) :=
  match annotations with
  | [] => Ok (properties, required_items)
  | (key, ann) :: rest =>
      r <- core ann ;;
      let properties := dict_set key (VDict (fst r)) properties in
      let required_items :=
        if snd r then required_items ++ [VStr key] else required_items in
      record_loop rest properties required_items
  end.

(** The body of [_convert_core]; every [self._convert_core(...)] in it is
    a call of [core]. *)
Definition convert_node (object : pytype) : result (dict * bool) :=
  match custom_schema self object with
  | Some schema => Ok (schema, true)
  | None =>
  match pydantic_schema self object with
  | Some schema => Ok (schema, true)
  | None =>
  match object with
  | TUnion args => _convert_union args
  | TGeneric (Olist | Otuple | Oset) args =>
      r <- _convert_union args ;;
      Ok (ArraySchema (fst r), true)
  | TAnnotated inner metadata =>
      let args := (inner, metadata) in
      r <- core (fst args) ;;
      let item_schema := fst r in
      if negb (dict_has "description" item_schema) then
        let doc := to_doc self args in
        match doc with
        | Some d =>
            if truthy_str doc
            then Ok (dict_set "description" (VStr d) item_schema, snd r)
            else Ok (item_schema, snd r)
        | None => Ok (item_schema, snd r)
        end
      else Ok (item_schema, snd r)
  | TLiteral args =>
      match args with
      | [] => Ok (ValueSchema (VStr "null"), false)
      | [v] => Ok (ConstraintSchema v, true)
      | _ => Ok (EnumSchema args, true)
      end
  | TEnum enum_values => Ok (EnumSchema enum_values, true)
  | TRecord doc annotations =>
      pr <- record_loop annotations [] [] ;;
      Ok (with_doc doc (ObjectSchema (fst pr) (snd pr)), true)
  | TGeneric Odict _ => Ok (ObjectSchema_bare, true)
  | TNoneType => Ok (ValueSchema (VStr "null"), false)
  | Tstr => Ok (ValueSchema (VStr "string"), true)
  | Tint => Ok (ValueSchema (VStr "integer"), true)
  | Tfloat => Ok (ValueSchema (VStr "number"), true)
  | Tbool => Ok (ValueSchema (VStr "boolean"), true)
  | Tdict => Ok (ValueSchema (VStr "object"), true)
  | Tlist => Ok (ValueSchema (VStr "array"), true)
  | TCallable doc parameters => _convert_function doc parameters
  | TOther repr =>
      if _raise_when_unsupported self
      then Err (ValueError ("Unsupported type: " ++ repr))
      else Ok (ObjectSchema_bare, true)
  end
  end
  end.
End Recursion.

(** [_convert_core]: [depth] bounds the nesting of the recursive calls, and
    a call that has none left is cut off. *)
Fixpoint _convert_core (self : _Converter) (depth : nat) (object : pytype)
  : result (dict * bool) :=
  match depth with
  | O => Err RecursionError
  | S depth' => convert_node self (_convert_core self depth') object
  end.

(** ** Entry points ([__init__.py]) *)

Section Interpreter.
(** What the running interpreter answers: whether pydantic is installed and
    which objects have a [model_json_schema] attribute; and how deep the
    calls of [_convert_core] may nest. *)
Variable pydantic_found : bool.
Variable has_model_json_schema : pytype -> option dict.
Variable depth : nat.

Definition typing_to_schema (object : pytype) (raise_when_unsupported : bool)
    (type_handler : option (pytype -> option dict))
    (annotated_doc_handler : option (pytype * list value -> option string))
  : result dict :=
  let converter :=
    __init__ pydantic_found has_model_json_schema
      raise_when_unsupported type_handler annotated_doc_handler in
  r <- _convert_core converter depth object ;;
  Ok (fst r).

(** [func] is given by its [__doc__] and the parameters of its signature. *)
Definition function_to_schema (doc : option string) (parameters : list param)
    (raise_when_unsupported : bool)
    (type_handler : option (pytype -> option dict))
    (annotated_doc_handler : option (pytype * list value -> option string))
  : result dict :=
  let converter :=
    __init__ pydantic_found has_model_json_schema
      raise_when_unsupported type_handler annotated_doc_handler in
  r <- _convert_function converter (_convert_core converter depth)
         doc parameters ;;
  Ok (fst r).
End Interpreter.

(** The converter of a call with the default arguments, in an interpreter
    without pydantic. *)
Definition default_Converter : _Converter :=
  __init__ false (fun _ => None) true None None.

(** ** Notions used in the statements *)

(** Neither the type handler nor the pydantic delegate takes the node, so
    the built-in rules of [_convert_core] decide it. *)
Definition unclaimed (self : _Converter) (object : pytype) : Prop :=
  custom_schema self object = None /\ pydantic_schema self object = None.

(** The type handler returns [schema] for the node, or it takes nothing and
    the pydantic delegate returns [schema]. *)
Definition claimed_with (self : _Converter) (object : pytype) (schema : dict)
  : Prop :=
  (exists handler, _type_handler self = Some handler /\
                   handler object = Some schema) \/
  (custom_schema self object = None /\ _enable_pydantic self = true /\
   model_json_schema self object = Some schema).

(** A type handler that answers [str | None] with a nullable string schema
    and leaves every other annotation to the built-in rules. *)
Definition nullable_str_handler (object : pytype) : option dict :=
  match object with
  | TUnion [Tstr; TNoneType] =>
      Some [("type", VList [VStr "string"; VStr "null"])]
  | _ => None
  end.

(** [ValueTypeItem] of model.py: the five scalar kind names. *)
Definition ValueTypeItem (x : value) : bool :=
  value_eq_str x "string" || value_eq_str x "integer" ||
  value_eq_str x "number" || value_eq_str x "boolean" ||
  value_eq_str x "null".

(** A list without its repetitions, every element at its first place. *)
Fixpoint dedup_in_order (l : list string) : list string :=
  match l with
  | [] => []
  | x :: l' =>
      x :: filter (fun y => negb (String.eqb x y)) (dedup_in_order l')
  end.

(** A member schema on which the test of the scalar collapse fails: it has
    no [type] key, or its [type] is ["array"] or ["object"]. *)
Definition not_scalar_typed (s : dict) : Prop :=
  dict_get "type" s = None \/
  dict_get "type" s = Some (VStr "array") \/
  dict_get "type" s = Some (VStr "object").

(** A member schema whose [type] is the string [k], neither ["array"] nor
    ["object"]. *)
Definition typed_as (s : dict) (k : string) : Prop :=
  dict_get "type" s = Some (VStr k) /\ k <> "array" /\ k <> "object".

(** [isinstance(arg, str)] *)
Definition is_str (x : value) : bool :=
  match x with
  | VStr _ => true
  | _ => false
  end.

(** The parameter [p] with the annotation [t] written out. *)
Definition with_annotation (t : pytype) (p : param) : param :=
  MkParam (name p) (kind p) (Some t) (default p).

(** The declared type of a parameter or, when there is none, the type of
    its default value. *)
Definition declared_type (p : param) : option pytype :=
  match annotation p with
  | Some a => Some a
  | None => option_map type_of (default p)
  end.

(** The schema of a parameter's type with the default value attached. *)
Definition attach_default (p : param) (schema : dict) : dict :=
  match default p with
  | Some d => dict_set "default" d schema
  | None => schema
  end.

(** The converter that does not raise on what it cannot convert, in an
    interpreter without pydantic. *)
Definition lenient_Converter : _Converter :=
  __init__ false (fun _ => None) false None None.

(** [def handler(a: int, b: str = "x")] of the test suite, and a function
    with a parameter that has neither annotation nor default. *)
Definition handler_parameters : list param :=
  [MkParam "a" POSITIONAL_OR_KEYWORD (Some Tint) None;
   MkParam "b" POSITIONAL_OR_KEYWORD (Some Tstr) (Some (VStr "x"))].

Definition bare_parameters : list param :=
  [MkParam "a" POSITIONAL_OR_KEYWORD (Some Tint) None;
   MkParam "x" POSITIONAL_OR_KEYWORD None None].

(** The parameters the loop of [_convert_function] passes over: [*args],
    [**kwargs] and a parameter named [self]. *)
Definition variadic_or_self (p : param) : Prop :=
  kind p = VAR_POSITIONAL \/ kind p = VAR_KEYWORD \/ name p = "self".

Section ParameterEntries.
(** What converting the type of each parameter returns. *)
Variable conv : param -> dict * bool.

(** The property of a parameter. *)
Definition entry (p : param) : string * value :=
  (name p, VDict (attach_default p (fst (conv p)))).

(** The parameters that are listed as required. *)
Definition listed (p : param) : bool :=
  negb (skipped p) && (snd (conv p) && is_empty (default p)).
End ParameterEntries.

(** [c2] agrees with [c1] wherever [c1] does not run out of depth. *)
Definition extends (c1 c2 : pytype -> result (dict * bool)) : Prop :=
  forall object, c1 object <> Err RecursionError -> c2 object = c1 object.

(** How deep the annotations nested in [t] go: the number of recursive
    calls of [_convert_core] below the one that converts [t]. *)
Fixpoint nesting (t : pytype) : nat :=
  match t with
  | TUnion args => S (list_max (map nesting args))
  | TGeneric _ args => S (list_max (map nesting args))
  | TAnnotated inner _ => S (nesting inner)
  | TRecord _ annotations =>
      S (list_max (map (fun kt => nesting (snd kt)) annotations))
  | TCallable _ parameters =>
      S (list_max (map (fun p =>
           match annotation p with
           | Some a => nesting a
           | None => match default p with
                     | Some (VObj cls _) => nesting cls
                     | _ => 0
                     end
           end) parameters))
  | _ => 0
  end.

(** ** Notions used in the further properties *)

(** The two ValueErrors the converter raises itself. *)
Definition conversion_error (e : error) : Prop :=
  (exists repr, e = ValueError ("Unsupported type: " ++ repr)) \/
  (exists name,
     e = ValueError ("Parameter '" ++ name ++ "' is missing a type annotation.")).

(** Two converters that give the same answers wherever [_convert_core] asks
    one: the truthy schema of the type handler, the truthy schema of the
    pydantic delegate, the doc of an annotated type, and the switch. *)
Definition same_answers (self1 self2 : _Converter) : Prop :=
  (forall object, custom_schema self1 object = custom_schema self2 object) /\
  (forall object, pydantic_schema self1 object = pydantic_schema self2 object) /\
  (forall args, to_doc self1 args = to_doc self2 args) /\
  _raise_when_unsupported self1 = _raise_when_unsupported self2.

Section FieldEntries.
(** What converting the type of each field returns. *)
Variable conv : pytype -> dict * bool.


End FieldEntries.

(** The conversion of a child node succeeds. *)
Definition converts (core : pytype -> result (dict * bool)) (t : pytype)
  : Prop :=
  exists r, core t = Ok r.

(** The parameter is passed over, or its type is found and converted. *)
Definition parameter_converts (self : _Converter)
    (core : pytype -> result (dict * bool)) (p : param) : Prop :=
  skipped p = true \/
  exists ann r, test_annotation self p = Ok ann /\ core ann = Ok r.

(** [class Row(TypedDict): a: int; b: Optional[str]], with a docstring. *)
Definition Row : pytype :=
  TRecord (Some "A row") [("a", Tint); ("b", TUnion [Tstr; TNoneType])].

(** [def method(self, *args, **kwargs)] *)
Definition method_parameters : list param :=
  [MkParam "self" POSITIONAL_OR_KEYWORD None None;
   MkParam "args" VAR_POSITIONAL None None;
   MkParam "kwargs" VAR_KEYWORD None None].

(** Every error of [r] satisfies [P]. *)
Definition raises_only {A : Type} (P : error -> Prop) (r : result A) : Prop :=
  forall e, r = Err e -> P e.

(** The schema has one of the keywords that constrain a value. *)
Definition has_keyword (s : dict) : bool :=
  dict_has "type" s || dict_has "const" s || dict_has "enum" s ||
  dict_has "oneOf" s.

(** The annotations whose conversion can report required=false. *)
Definition may_be_optional (object : pytype) : bool :=
  match object with
  | TNoneType | TUnion _ | TAnnotated _ _ | TLiteral [] => true
  | _ => false
  end.

(** [Annotated[Row, "The row to insert"]] *)
Definition annotated_Row : pytype :=
  TAnnotated Row [VStr "The row to insert"].

(** * Properties *)

Lemma default_unclaimed (object : pytype) : unclaimed default_Converter object.
Proof. split; reflexivity. Qed.

Lemma _convert_core_S (self : _Converter) (depth : nat) (object : pytype) :
  _convert_core self (S depth) object
  = convert_node self (_convert_core self depth) object.
Proof. reflexivity. Qed.

(** One step of [_convert_core] on an unclaimed node. *)
Ltac core_step H :=
  destruct H as [?Hcustom ?Hpydantic];
  rewrite _convert_core_S; unfold convert_node;
  rewrite ?Hcustom, ?Hpydantic.

(** ** Lists built by comprehension *)

Lemma mapM_Forall2 {A B : Type} (f : A -> result B) (l : list A) (bs : list B) :
  Forall2 (fun a b => f a = Ok b) l bs -> mapM f l = Ok bs.
Proof.
  induction 1 as [|a b l bs Hab _ IH]; cbn; [reflexivity|].
  now rewrite Hab, IH.
Qed.

(** The first member that raises decides the whole comprehension. *)
Lemma mapM_first_error {A B : Type} (f : A -> result B)
    (pre : list A) (a : A) (post : list A) (e : error) :
  Forall (fun x => exists b, f x = Ok b) pre -> f a = Err e ->
  mapM f (pre ++ a :: post) = Err e.
Proof.
  intros Hpre Ha; induction Hpre as [|x pre [b Hx] _ IH]; cbn.
  - now rewrite Ha.
  - now rewrite Hx, IH.
Qed.

(** ** Dicts *)


(** A new key goes last. *)
Lemma dict_set_fresh (k : string) (v : value) (d : dict) :
  dict_get k d = None -> dict_set k v d = d ++ [(k, v)].
Proof.
  induction d as [|[k' v'] d IH]; cbn; [reflexivity|].
  destruct (String.eqb k k'); [discriminate|].
  intros H. now rewrite IH.
Qed.

Lemma dict_get_app (k : string) (d1 d2 : dict) :
  dict_get k (d1 ++ d2) =
  match dict_get k d1 with Some v => Some v | None => dict_get k d2 end.
Proof.
  induction d1 as [|[k' v'] d1 IH]; cbn; [reflexivity|].
  now destruct (String.eqb k k').
Qed.

(** ** The depth

    A result other than [RecursionError] does not depend on the depth: a
    larger one gives the same schema, or the same ValueError. *)

Lemma bind_extends {A B : Type} (r1 r2 : result A) (k1 k2 : A -> result B) :
  (r1 <> Err RecursionError -> r2 = r1) ->
  (forall a, r1 = Ok a -> k1 a <> Err RecursionError -> k2 a = k1 a) ->
  bind r1 k1 <> Err RecursionError -> bind r2 k2 = bind r1 k1.
Proof.
  intros Hr Hk H. destruct r1 as [a|e]; cbn in *.
  - rewrite Hr by discriminate. cbn. now apply Hk.
  - rewrite Hr; [reflexivity|]. congruence.
Qed.

Lemma mapM_extends {A B : Type} (f g : A -> result B) (l : list A) :
  (forall a, f a <> Err RecursionError -> g a = f a) ->
  mapM f l <> Err RecursionError -> mapM g l = mapM f l.
Proof.
  intros Hfg. induction l as [|a l IH]; cbn; [reflexivity|].
  apply bind_extends; [apply Hfg|].
  intros b _. apply bind_extends; [exact IH|]. reflexivity.
Qed.

Section Extends.
Variable self : _Converter.
Variables c1 c2 : pytype -> result (dict * bool).
Hypothesis Hext : extends c1 c2.

Lemma _convert_union_extends (annotations : list pytype) :
  _convert_union c1 annotations <> Err RecursionError ->
  _convert_union c2 annotations = _convert_union c1 annotations.
Proof.
  unfold _convert_union.
  destruct annotations as [|a [|b annotations]]; [reflexivity| |].
  - apply bind_extends; [apply Hext|]. reflexivity.
  - apply bind_extends; [|reflexivity].
    apply mapM_extends. intros ann.
    apply bind_extends; [apply Hext|]. reflexivity.
Qed.

Lemma function_loop_extends (params : list param) :
  forall properties required,
  function_loop self c1 params properties required <> Err RecursionError ->
  function_loop self c2 params properties required
  = function_loop self c1 params properties required.
Proof.
  induction params as [|p params IH]; intros properties required;
    cbn [function_loop]; [reflexivity|].
  destruct (skipped p); [apply IH|].
  apply bind_extends; [reflexivity|]. intros ann _.
  apply bind_extends; [apply Hext|]. intros r _. apply IH.
Qed.

Lemma record_loop_extends (annotations : list (string * pytype)) :
  forall properties required,
  record_loop c1 annotations properties required <> Err RecursionError ->
  record_loop c2 annotations properties required
  = record_loop c1 annotations properties required.
Proof.
  induction annotations as [|[key ann] annotations IH];
    intros properties required; cbn [record_loop]; [reflexivity|].
  apply bind_extends; [apply Hext|]. intros r _. apply IH.
Qed.

Lemma convert_node_extends : extends (convert_node self c1) (convert_node self c2).
Proof.
  intros object. unfold convert_node.
  destruct (custom_schema self object); [reflexivity|].
  destruct (pydantic_schema self object); [reflexivity|].
  destruct object as [| | | | | | |args|o args|inner metadata|args|values
                      |doc annotations|doc parameters|repr];
    try reflexivity.
  - apply _convert_union_extends.
  - destruct o; try reflexivity;
      (apply bind_extends; [apply _convert_union_extends | reflexivity]).
  - apply bind_extends; [apply Hext | reflexivity].
  - apply bind_extends; [apply record_loop_extends | reflexivity].
  - unfold _convert_function.
    apply bind_extends; [apply function_loop_extends | reflexivity].
Qed.
End Extends.

Lemma _convert_core_extends (self : _Converter) (depth : nat) :
  extends (_convert_core self depth) (_convert_core self (S depth)).
Proof.
  induction depth as [|depth IH].
  - intros object H. now contradiction H.
  - intros object. rewrite !_convert_core_S.
    now apply convert_node_extends.
Qed.

(** A conversion that returns (or raises a ValueError) with some depth
    does the same with every larger one. *)
Lemma _convert_core_budget (self : _Converter) (depth depth' : nat)
    (object : pytype) :
  depth <= depth' ->
  _convert_core self depth object <> Err RecursionError ->
  _convert_core self depth' object = _convert_core self depth object.
Proof.
  induction 1 as [|depth' _ IH]; [reflexivity|].
  intros H. rewrite _convert_core_extends; rewrite IH; auto.
Qed.

(** A depth larger than the nesting of the annotation is enough. *)

Lemma bind_no_RecursionError {A B : Type} (r : result A) (k : A -> result B) :
  r <> Err RecursionError ->
  (forall a, r = Ok a -> k a <> Err RecursionError) ->
  bind r k <> Err RecursionError.
Proof.
  intros Hr Hk. destruct r as [a|e]; cbn; [now apply Hk | congruence].
Qed.

Lemma mapM_no_RecursionError {A B : Type} (f : A -> result B) (l : list A) :
  (forall a, In a l -> f a <> Err RecursionError) ->
  mapM f l <> Err RecursionError.
Proof.
  induction l as [|a l IH]; cbn; intros H; [discriminate|].
  apply bind_no_RecursionError; [apply H; now left|]. intros b _.
  apply bind_no_RecursionError; [apply IH; intros; apply H; now right|].
  discriminate.
Qed.

Lemma In_list_max {A : Type} (f : A -> nat) (l : list A) (a : A) :
  In a l -> f a <= list_max (map f l).
Proof.
  unfold list_max. induction l as [|b l IH]; cbn; [contradiction|].
  intros [->|H]; [lia|]. specialize (IH H). lia.
Qed.

Section Enough.
Variable self : _Converter.
Variable core : pytype -> result (dict * bool).

Lemma _convert_union_no_RecursionError (annotations : list pytype) :
  (forall a, In a annotations -> core a <> Err RecursionError) ->
  _convert_union core annotations <> Err RecursionError.
Proof.
  intros H. unfold _convert_union.
  destruct annotations as [|a [|b annotations]]; [discriminate| |].
  - apply bind_no_RecursionError; [apply H; now left | discriminate].
  - apply bind_no_RecursionError.
    + apply mapM_no_RecursionError. intros ann Hann.
      apply bind_no_RecursionError; [now apply H | discriminate].
    + intros schemas _. destruct (forallb has_scalar_type schemas);
        [|discriminate].
      apply bind_no_RecursionError; [|discriminate].
      apply mapM_no_RecursionError. intros s _. unfold getitem.
      destruct (dict_get "type" s); discriminate.
Qed.

Lemma function_loop_no_RecursionError (params : list param) :
  (forall p ann, In p params -> test_annotation self p = Ok ann ->
     core ann <> Err RecursionError) ->
  forall properties required,
  function_loop self core params properties required <> Err RecursionError.
Proof.
  induction params as [|p params IH]; intros H properties required;
    cbn [function_loop]; [discriminate|].
  assert (IH' := IH (fun q ann Hq => H q ann (or_intror Hq))).
  destruct (skipped p); [apply IH'|].
  apply bind_no_RecursionError.
  - unfold test_annotation.
    destruct (annotation p); [discriminate|].
    destruct (default p); [discriminate|].
    destruct (negb (_raise_when_unsupported self)); discriminate.
  - intros ann Hann. apply bind_no_RecursionError.
    + apply (H p ann); [now left | exact Hann].
    + intros r _. apply IH'.
Qed.

Lemma record_loop_no_RecursionError (annotations : list (string * pytype)) :
  (forall kt, In kt annotations -> core (snd kt) <> Err RecursionError) ->
  forall properties required,
  record_loop core annotations properties required <> Err RecursionError.
Proof.
  induction annotations as [|[key ann] annotations IH];
    intros H properties required; cbn [record_loop]; [discriminate|].
  apply bind_no_RecursionError.
  - apply (H (key, ann)). now left.
  - intros r _. apply IH. intros kt Hkt. apply H. now right.
Qed.
End Enough.

Lemma _convert_core_enough (self : _Converter) (depth : nat) :
  forall object, nesting object < depth ->
  _convert_core self depth object <> Err RecursionError.
Proof.
  induction depth as [|depth IH]; intros object Hlt; [lia|].
  rewrite _convert_core_S. unfold convert_node.
  destruct (custom_schema self object); [discriminate|].
  destruct (pydantic_schema self object); [discriminate|].
  destruct object as [| | | | | | |args|o args|inner metadata|args|values
                      |doc annotations|doc parameters|repr];
    try discriminate; cbn [nesting] in Hlt.
  - apply _convert_union_no_RecursionError. intros a Ha. apply IH.
    pose proof (In_list_max nesting args a Ha). lia.
  - assert (Hu : _convert_union (_convert_core self depth) args
                 <> Err RecursionError).
    { apply _convert_union_no_RecursionError. intros a Ha. apply IH.
      pose proof (In_list_max nesting args a Ha). lia. }
    destruct o; try discriminate;
      (apply bind_no_RecursionError; [exact Hu | discriminate]).
  - cbn [fst]. apply bind_no_RecursionError; [apply IH; lia|].
    intros r _. destruct (negb (dict_has "description" (fst r)));
      [|discriminate].
    destruct (to_doc self (inner, metadata)) as [d|]; [|discriminate].
    destruct (truthy_str (Some d)); discriminate.
  - destruct args as [|v [|w args]]; discriminate.
  - apply bind_no_RecursionError; [|discriminate].
    apply record_loop_no_RecursionError. intros kt Hkt. apply IH.
    pose proof (In_list_max (fun kt => nesting (snd kt)) annotations kt Hkt).
    cbn beta in *. lia.
  - unfold _convert_function. apply bind_no_RecursionError; [|discriminate].
    apply function_loop_no_RecursionError. intros p ann Hp Hann. apply IH.
    pose proof (In_list_max
      (fun p : param =>
         match annotation p with
         | Some a => nesting a
         | None => match default p with
                   | Some (VObj cls _) => nesting cls
                   | _ => 0
                   end
         end) parameters p Hp) as Hmax. cbn beta in Hmax.
    revert Hmax Hann.
    set (m := list_max _) in *. clearbody m. unfold test_annotation.
    destruct (annotation p) as [a|]; [intros ? [= <-]; lia|].
    destruct (default p) as [d|].
    + intros Hmax [= <-]. destruct d; cbn [type_of nesting]; lia.
    + destruct (negb (_raise_when_unsupported self));
        [intros _ [= <-]; cbn; lia | discriminate].
  - destruct (_raise_when_unsupported self); discriminate.
Qed.

(** Every annotation is converted, to a schema or to a ValueError, once the
    depth exceeds its nesting, and then to the same result with every
    larger depth. *)
Lemma _convert_core_settles (self : _Converter) (object : pytype) (depth : nat) :
  nesting object < depth ->
  _convert_core self depth object
  = _convert_core self (S (nesting object)) object /\
  _convert_core self depth object <> Err RecursionError.
Proof.
  intros Hlt. split; [|now apply _convert_core_enough].
  apply _convert_core_budget; [lia|].
  apply _convert_core_enough. lia.
Qed.

(** ** Literal types *)

(** C8. A [Literal] type with no allowed value converts to the null Value
    schema and is not required; with exactly one allowed value it converts
    to [{const: value}], required; with two or more it converts to
    [{enum: values}], the values in declaration order, required. *)
Theorem literal_collapse (self : _Converter) (depth : nat) (args : list value) :
  unclaimed self (TLiteral args) ->
  (args = [] ->
   _convert_core self (S depth) (TLiteral args)
   = Ok ([("type", VStr "null")], false)) /\
  (forall v, args = [v] ->
   _convert_core self (S depth) (TLiteral args) = Ok ([("const", v)], true)) /\
  (2 <= length args ->
   _convert_core self (S depth) (TLiteral args)
   = Ok ([("enum", VList args)], true)).
Proof.
  intros H; core_step H.
  split; [|split].
  - now intros ->.
  - now intros v ->.
  - destruct args as [|v [|w args]]; cbn; intros Hlen; try lia. reflexivity.
Qed.

Lemma literal_collapse_witness :
  _convert_core default_Converter 1 (TLiteral [])
  = Ok ([("type", VStr "null")], false) /\
  _convert_core default_Converter 1 (TLiteral [VStr "fast"])
  = Ok ([("const", VStr "fast")], true) /\
  _convert_core default_Converter 1
    (TLiteral [VStr "small"; VStr "medium"; VStr "large"])
  = Ok ([("enum", VList [VStr "small"; VStr "medium"; VStr "large"])], true).
Proof.
  split; [|split].
  - apply (literal_collapse default_Converter 0 []);
      [apply default_unclaimed | reflexivity].
  - apply (literal_collapse default_Converter 0 [VStr "fast"]);
      [apply default_unclaimed | reflexivity].
  - apply (literal_collapse default_Converter 0
             [VStr "small"; VStr "medium"; VStr "large"]);
      [apply default_unclaimed | cbn; lia].
Defined.

(** ** Dict types *)

(** C10. A dict annotation, subscripted ([dict[K, V]]) or not, converts to
    the bare object schema [{type: object}], required: there is no
    [properties] and no [additionalProperties] key. The type arguments are
    not looked at and not converted: the result is the same for all of them,
    whatever they would convert to, already with a budget that allows no
    recursive call, and whatever the recursive call would do. *)
Theorem dict_is_bare_object (self : _Converter) (depth : nat) :
  (forall args, unclaimed self (TGeneric Odict args) ->
     _convert_core self (S depth) (TGeneric Odict args)
     = Ok ([("type", VStr "object")], true) /\
     forall core, convert_node self core (TGeneric Odict args)
                  = Ok ([("type", VStr "object")], true)) /\
  (unclaimed self Tdict ->
     _convert_core self (S depth) Tdict = Ok ([("type", VStr "object")], true)) /\
  dict_has "properties" [("type", VStr "object")] = false /\
  dict_has "additionalProperties" [("type", VStr "object")] = false.
Proof.
  repeat split.
  - now core_step H.
  - intros core. destruct H as [Hcustom Hpydantic].
    unfold convert_node. now rewrite Hcustom, Hpydantic.
  - intros H; now core_step H.
Qed.

Lemma dict_is_bare_object_witness :
  _convert_core default_Converter 1 (TGeneric Odict [Tstr; TOther "Ellipsis"])
  = Ok ([("type", VStr "object")], true) /\
  _convert_core default_Converter 1 Tdict = Ok ([("type", VStr "object")], true).
Proof.
  destruct (dict_is_bare_object default_Converter 0) as (Hsub & Hbare & _).
  split.
  - apply (Hsub [Tstr; TOther "Ellipsis"]), default_unclaimed.
  - apply Hbare, default_unclaimed.
Defined.

(** ** Record types *)

Section RecordLoop.
Variable core : pytype -> result (dict * bool).

Lemma record_loop_total (annotations : list (string * pytype)) :
  Forall (fun kt => exists r, core (snd kt) = Ok r) annotations ->
  forall properties required,
  exists pr, record_loop core annotations properties required = Ok pr.
Proof.
  induction 1 as [|[key ann] rest [r Hr] _ IH]; intros properties required.
  - now exists (properties, required).
  - cbn in Hr |- *. rewrite Hr. cbn. apply IH.
Qed.

(** Keys are only ever appended to [required_items]. *)
Lemma record_loop_required_grows (annotations : list (string * pytype)) :
  forall properties required pr,
  record_loop core annotations properties required = Ok pr ->
  forall x, In x required -> In x (snd pr).
Proof.
  induction annotations as [|[key ann] rest IH];
    cbn; intros properties required pr H x Hx.
  - now injection H as <-.
  - destruct (core ann) as [r|e]; cbn in H; [|discriminate].
    eapply IH; [exact H|].
    destruct (snd r); [apply in_or_app; now left | exact Hx].
Qed.

(** A field whose conversion reports required=true is listed. *)
Lemma record_loop_required_field (annotations : list (string * pytype)) :
  forall properties required pr,
  record_loop core annotations properties required = Ok pr ->
  forall key ann schema, In (key, ann) annotations ->
  core ann = Ok (schema, true) -> In (VStr key) (snd pr).
Proof.
  induction annotations as [|[key0 ann0] rest IH];
    cbn; intros properties required pr H key ann schema Hin Hconv.
  - contradiction.
  - destruct (core ann0) as [r|e] eqn:Hr; cbn in H; [|discriminate].
    destruct Hin as [Heq|Hin].
    + injection Heq as -> ->. rewrite Hconv in Hr. injection Hr as <-.
      cbn in H. eapply record_loop_required_grows; [exact H|].
      apply in_or_app; right; now left.
    + eapply IH; eauto.
Qed.
End RecordLoop.

(** ** Hook and delegate *)

(** C9. A node for which the type handler returns a non-empty schema, or,
    failing that, for which the pydantic delegate produces one, is reported
    as required, with that schema taken as it is, whatever it contains. So a
    record whose field has such a type lists the field in [required], also
    when the schema handed back is a nullable one. *)
Theorem claimed_node_is_required (self : _Converter) (depth : nat)
    (object : pytype) (schema : dict) :
  schema <> [] ->
  claimed_with self object schema ->
  _convert_core self (S depth) object = Ok (schema, true) /\
  (forall doc annotations key,
     unclaimed self (TRecord doc annotations) ->
     In (key, object) annotations ->
     Forall (fun kt => exists r, _convert_core self (S depth) (snd kt) = Ok r)
            annotations ->
     exists properties required,
       _convert_core self (S (S depth)) (TRecord doc annotations)
       = Ok (with_doc doc (ObjectSchema properties required), true) /\
       In (VStr key) required).
Proof.
  intros Hne Hclaimed.
  assert (Hnode : forall d, _convert_core self (S d) object = Ok (schema, true)).
  { intros d. destruct Hclaimed as [(handler & Hh & Hs)|(Hc & He & Hm)].
    - rewrite _convert_core_S. unfold convert_node, custom_schema.
      rewrite Hh, Hs.
      destruct schema; [congruence|reflexivity].
    - rewrite _convert_core_S. unfold convert_node. rewrite Hc.
      unfold pydantic_schema, _convert_pydantic_model. rewrite He, Hm.
      destruct schema; [congruence|reflexivity]. }
  split; [apply Hnode|].
  intros doc annotations key Hun Hin Hall.
  destruct (record_loop_total _ annotations Hall [] []) as [[props req] Hloop].
  exists props, req. split.
  - core_step Hun. now rewrite Hloop.
  - change req with (snd (props, req)).
    eapply record_loop_required_field; [exact Hloop | exact Hin | apply Hnode].
Qed.

(** The handler of the example: every [str | None] field is handed a
    nullable string schema. *)
Lemma claimed_node_is_required_witness :
  let nullable := [("type", VList [VStr "string"; VStr "null"])] in
  let self := __init__ false (fun _ => None) true
                (Some nullable_str_handler) None in
  _convert_core self 1 (TUnion [Tstr; TNoneType]) = Ok (nullable, true) /\
  exists properties required,
    _convert_core self 2 (TRecord None [("id", Tint); ("label", TUnion [Tstr; TNoneType])])
    = Ok (ObjectSchema properties required, true) /\
       In (VStr "label") required.
Proof.
  intros nullable self.
  destruct (claimed_node_is_required self 0 (TUnion [Tstr; TNoneType]) nullable)
    as [Hnode Hrec].
  - discriminate.
  - left. exists nullable_str_handler. split; reflexivity.
  - split; [exact Hnode|].
    apply (Hrec None [("id", Tint); ("label", TUnion [Tstr; TNoneType])] "label").
    + split; reflexivity.
    + right; left; reflexivity.
    + repeat constructor; eexists; reflexivity.
Defined.

(** ** Unions *)

Section Union.
Variable core : pytype -> result (dict * bool).

Lemma member_schemas (annotations : list pytype) (schemas : list dict) :
  Forall2 (fun ann s => exists r, core ann = Ok (s, r)) annotations schemas ->
  mapM (fun ann => r <- core ann ;; Ok (fst r)) annotations = Ok schemas.
Proof.
  intros H. apply mapM_Forall2.
  induction H as [|ann s anns ss [r Hr] _ IH]; constructor; [|exact IH].
  now rewrite Hr.
Qed.

Lemma typed_as_scalar (s : dict) (k : string) :
  typed_as s k -> has_scalar_type s = true.
Proof.
  intros (Hget & Ha & Ho). unfold has_scalar_type. rewrite Hget. cbn.
  apply String.eqb_neq in Ha, Ho. now rewrite Ha, Ho.
Qed.

Lemma not_scalar_typed_fails (s : dict) :
  not_scalar_typed s -> has_scalar_type s = false.
Proof.
  unfold has_scalar_type. now intros [-> | [-> | ->]].
Qed.

(** Two or more members, each with a string [type] that passes the test:
    the types are collected as they come. *)
Lemma _convert_union_scalar (annotations : list pytype)
    (schemas : list dict) (kinds : list string) :
  2 <= length annotations ->
  Forall2 (fun ann s => exists r, core ann = Ok (s, r)) annotations schemas ->
  Forall2 typed_as schemas kinds ->
  _convert_union core annotations
  = Ok (ValueSchema (VList (map VStr kinds)),
        negb (existsb is_NoneType annotations)).
Proof.
  intros Hlen Hconv Hkinds. unfold _convert_union.
  destruct annotations as [|a [|b annotations]]; cbn in Hlen; try lia.
  rewrite (member_schemas _ _ Hconv). cbn [bind].
  assert (Hall : forallb has_scalar_type schemas = true).
  { apply forallb_forall. intros s Hs.
    clear - Hkinds Hs. induction Hkinds as [|s0 k ss ks Hk _ IH].
    - contradiction.
    - destruct Hs as [<-|Hs]; [eapply typed_as_scalar; eauto | auto]. }
  rewrite Hall.
  assert (Htypes : mapM (getitem "type") schemas = Ok (map VStr kinds)).
  { apply mapM_Forall2. clear - Hkinds.
    induction Hkinds as [|s k ss ks (Hget & _) _ IH]; constructor; auto.
    unfold getitem. now rewrite Hget. }
  now rewrite Htypes.
Qed.

(** Two or more members, one of which fails the test: oneOf. *)
Lemma _convert_union_oneOf (annotations : list pytype)
    (schemas : list dict) :
  2 <= length annotations ->
  Forall2 (fun ann s => exists r, core ann = Ok (s, r)) annotations schemas ->
  Exists not_scalar_typed schemas ->
  _convert_union core annotations
  = Ok (OneOfSchema schemas, negb (existsb is_NoneType annotations)).
Proof.
  intros Hlen Hconv Hex. unfold _convert_union.
  destruct annotations as [|a [|b annotations]]; cbn in Hlen; try lia.
  rewrite (member_schemas _ _ Hconv). cbn [bind].
  assert (Hall : forallb has_scalar_type schemas = false).
  { clear - Hex. induction Hex as [s ss Hs|s ss _ IH]; cbn.
    - now rewrite (not_scalar_typed_fails _ Hs).
    - rewrite IH. apply andb_false_r. }
  now rewrite Hall.
Qed.
End Union.

(** The test of the collapse guards the subscription [s["type"]]: no
    KeyError. *)
Lemma getitem_type_defined (schemas : list dict) :
  forallb has_scalar_type schemas = true ->
  exists types, mapM (getitem "type") schemas = Ok types.
Proof.
  induction schemas as [|s schemas IH]; cbn; [now exists []|].
  intros H. apply andb_prop in H as [Hs Hrest].
  destruct (IH Hrest) as [types ->].
  unfold has_scalar_type in Hs. unfold getitem.
  destruct (dict_get "type" s) as [t|]; [|discriminate].
  now exists (t :: types).
Qed.

(** C1, as the code has it. A union of two or more members, every one of
    which converts to a schema whose [type] is a string other than ["array"]
    and ["object"], converts to one Value schema whose [type] is the list of
    the members' types in member order, repetitions kept. When a member's
    schema has no [type], or has type ["array"] or ["object"], the union
    converts to [oneOf] over the members' schemas, all of them, in order. *)
Theorem union_collapse (self : _Converter) (depth : nat)
    (args : list pytype) (schemas : list dict) :
  2 <= length args ->
  unclaimed self (TUnion args) ->
  Forall2 (fun ann s => exists r, _convert_core self depth ann = Ok (s, r))
          args schemas ->
  (forall kinds, Forall2 typed_as schemas kinds ->
     _convert_core self (S depth) (TUnion args)
     = Ok ([("type", VList (map VStr kinds))],
           negb (existsb is_NoneType args))) /\
  (Exists not_scalar_typed schemas ->
     _convert_core self (S depth) (TUnion args)
     = Ok ([("oneOf", VList (map VDict schemas))],
           negb (existsb is_NoneType args))).
Proof.
  intros Hlen Hun Hconv. core_step Hun. split.
  - intros kinds Hkinds. now apply _convert_union_scalar with schemas.
  - intros Hex. now apply _convert_union_oneOf.
Qed.

Lemma union_collapse_witness :
  _convert_core default_Converter 2 (TUnion [Tstr; Tint; TNoneType])
  = Ok ([("type", VList [VStr "string"; VStr "integer"; VStr "null"])], false) /\
  _convert_core default_Converter 3 (TUnion [Tstr; TGeneric Olist [Tstr]])
  = Ok ([("oneOf",
          VList [VDict [("type", VStr "string")];
                 VDict [("type", VStr "array");
                        ("items", VDict [("type", VStr "string")])]])], true).
Proof.
  split.
  - destruct (union_collapse default_Converter 1 [Tstr; Tint; TNoneType]
                [ValueSchema (VStr "string"); ValueSchema (VStr "integer");
                 ValueSchema (VStr "null")]) as [Hcollapse _];
      [cbn; lia | apply default_unclaimed | | ].
    + repeat constructor; eexists; reflexivity.
    + apply (Hcollapse ["string"; "integer"; "null"]).
      repeat constructor; discriminate.
  - destruct (union_collapse default_Converter 2 [Tstr; TGeneric Olist [Tstr]]
                [ValueSchema (VStr "string");
                 ArraySchema (ValueSchema (VStr "string"))]) as [_ HoneOf];
      [cbn; lia | apply default_unclaimed | | ].
    + repeat constructor; eexists; reflexivity.
    + apply HoneOf.
      apply Exists_cons_tl, Exists_cons_hd. right; left; reflexivity.
Defined.

(** [int | Annotated[int, 1]]: both members convert to the bare Value schema
    of kind integer, and the union lists the kind twice. *)
Lemma union_collapse_dedup_counterexample :
  let args := [Tint; TAnnotated Tint [VInt 1]] in
  Forall (fun ann => _convert_core default_Converter 2 ann
                     = Ok ([("type", VStr "integer")], true)) args /\
  exists types,
    _convert_core default_Converter 3 (TUnion args)
    = Ok ([("type", VList types)], true) /\
    types <> map VStr (dedup_in_order ["integer"; "integer"]).
Proof.
  split.
  - repeat constructor.
  - exists [VStr "integer"; VStr "integer"]. split; [reflexivity|discriminate].
Qed.

(** C2, as the code has it. Handed a single member, as it is for [list[X]],
    [tuple[X]] and [set[X]] (a [Union] of one member is that member itself),
    [_convert_union] returns the member's schema, and as requiredness the one
    computed at the level of the tuple, which is true exactly when the member
    is not the None type; the requiredness the member's own conversion
    reported is dropped. The array rule in turn drops that flag: the array is
    required and its items are the member's schema. *)
Theorem single_member_union (self : _Converter) (depth : nat)
    (member : pytype) (schema : dict) (required : bool) :
  _convert_core self depth member = Ok (schema, required) ->
  _convert_union (_convert_core self depth) [member]
  = Ok (schema, negb (is_NoneType member)) /\
  (forall o, o <> Odict -> unclaimed self (TGeneric o [member]) ->
   _convert_core self (S depth) (TGeneric o [member])
   = Ok ([("type", VStr "array"); ("items", VDict schema)], true)).
Proof.
  intros Hconv.
  assert (H : _convert_union (_convert_core self depth) [member]
              = Ok (schema, negb (is_NoneType member))).
  { unfold _convert_union. rewrite Hconv. cbn. now rewrite orb_false_r. }
  split; [exact H|].
  intros o Ho Hun. core_step Hun. rewrite H.
  destruct o; try reflexivity. congruence.
Qed.

Lemma single_member_union_witness :
  _convert_union (_convert_core default_Converter 1) [Tstr]
  = Ok ([("type", VStr "string")], true) /\
  _convert_core default_Converter 2 (TGeneric Olist [Tstr])
  = Ok ([("type", VStr "array"); ("items", VDict [("type", VStr "string")])],
        true).
Proof.
  destruct (single_member_union default_Converter 1 Tstr
              [("type", VStr "string")] true eq_refl) as [Hu Ha].
  split; [exact Hu|].
  apply (Ha Olist); [discriminate | apply default_unclaimed].
Defined.

(** [list[int | None]] hands the one-member tuple [(int | None,)] to
    [_convert_union]: the member's own conversion reports required=false,
    the call reports required=true. *)
Lemma single_member_union_counterexample :
  let member := TUnion [Tint; TNoneType] in
  exists schema,
    _convert_core default_Converter 2 member = Ok (schema, false) /\
    _convert_union (_convert_core default_Converter 2) [member]
    = Ok (schema, true).
Proof.
  exists [("type", VList [VStr "integer"; VStr "null"])].
  split; reflexivity.
Qed.

(** C3, as the code has it. For [T] that is neither a union nor the None
    type, [Union[T, None]] is not required, whatever [T] converts to; its
    schema is built from the schema of [T] and from the schema of the None
    member (the null Value schema, unless the type handler or the delegate
    answers for the None type) rather than equal to the schema of [T]. When
    both have a string [type] other than ["array"] and ["object"], it is the
    Value schema whose [type] lists the type of [T] and then that of the None
    member; when either has no [type], or type ["array"] or ["object"], it is
    [oneOf] over the schema of [T] and the schema of the None member. *)
Theorem optional_union (self : _Converter) (depth : nat)
    (T : pytype) (schema : dict) (required : bool) :
  _is_union T = false -> is_NoneType T = false ->
  unclaimed self (TUnion [T; TNoneType]) ->
  _convert_core self depth T = Ok (schema, required) ->
  exists none_schema none_required schema',
    _convert_core self depth TNoneType = Ok (none_schema, none_required) /\
    (unclaimed self TNoneType -> none_schema = [("type", VStr "null")]) /\
    _convert_core self (S depth) (TUnion [T; TNoneType]) = Ok (schema', false) /\
    (forall k k', typed_as schema k -> typed_as none_schema k' ->
       schema' = [("type", VList [VStr k; VStr k'])]) /\
    (not_scalar_typed schema \/ not_scalar_typed none_schema ->
       schema' = [("oneOf", VList [VDict schema; VDict none_schema])]).
Proof.
  intros _ _ Hun Hconv.
  destruct depth as [|depth]; [discriminate|].
  assert (Hnone : exists ns nr,
            _convert_core self (S depth) TNoneType = Ok (ns, nr) /\
            (unclaimed self TNoneType -> ns = [("type", VStr "null")])).
  { rewrite _convert_core_S. unfold convert_node, unclaimed.
    destruct (custom_schema self TNoneType) as [s|].
    { exists s, true. split; [reflexivity|]. intros [H _]. discriminate. }
    destruct (pydantic_schema self TNoneType) as [s|].
    { exists s, true. split; [reflexivity|]. intros [_ H]. discriminate. }
    exists [("type", VStr "null")], false. split; reflexivity. }
  destruct Hnone as (ns & nr & Hn & Hnull).
  assert (Hreq : negb (existsb is_NoneType [T; TNoneType]) = false).
  { cbn. now rewrite orb_true_r. }
  assert (Hmembers :
    Forall2 (fun ann s => exists r, _convert_core self (S depth) ann = Ok (s, r))
            [T; TNoneType] [schema; ns]).
  { constructor; [eauto|]. constructor; [eauto|constructor]. }
  assert (Hstep : _convert_core self (S (S depth)) (TUnion [T; TNoneType])
                  = _convert_union (_convert_core self (S depth))
                      [T; TNoneType]).
  { now core_step Hun. }
  assert (Hex : exists schema',
            _convert_union (_convert_core self (S depth)) [T; TNoneType]
            = Ok (schema', negb (existsb is_NoneType [T; TNoneType]))).
  { unfold _convert_union.
    rewrite (member_schemas _ _ _ Hmembers). cbn [bind].
    destruct (forallb has_scalar_type [schema; ns]) eqn:Hall.
    - destruct (getitem_type_defined _ Hall) as [types ->].
      eexists; reflexivity.
    - eexists; reflexivity. }
  destruct Hex as [schema' Hs'].
  exists ns, nr, schema'. split; [exact Hn|]. split; [exact Hnull|].
  split; [|split].
  - rewrite Hstep, Hs'. now rewrite Hreq.
  - intros k k' Hk Hk'.
    assert (Hkinds : Forall2 typed_as [schema; ns] [k; k']).
    { constructor; [exact Hk|]. constructor; [exact Hk'|constructor]. }
    pose proof (_convert_union_scalar _ [T; TNoneType] [schema; ns] [k; k']
                  (le_n 2) Hmembers Hkinds) as E.
    rewrite Hs' in E. now injection E.
  - intros Hns.
    assert (Hex : Exists not_scalar_typed [schema; ns]).
    { destruct Hns as [H|H]; [now constructor|].
      now apply Exists_cons_tl, Exists_cons_hd. }
    pose proof (_convert_union_oneOf _ [T; TNoneType] [schema; ns]
                  (le_n 2) Hmembers Hex) as E.
    rewrite Hs' in E. now injection E.
Qed.

Lemma optional_union_witness :
  _convert_core default_Converter 2 (TUnion [Tbool; TNoneType])
  = Ok ([("type", VList [VStr "boolean"; VStr "null"])], false) /\
  _convert_core default_Converter 2 (TUnion [TLiteral [VStr "fast"]; TNoneType])
  = Ok ([("oneOf", VList [VDict [("const", VStr "fast")];
                          VDict [("type", VStr "null")]])], false).
Proof.
  split.
  - destruct (optional_union default_Converter 1 Tbool
                [("type", VStr "boolean")] true)
      as (ns & nr & schema' & _ & Hnull & Hres & Hscalar & _);
      [reflexivity | reflexivity | apply default_unclaimed | reflexivity |].
    rewrite Hres. rewrite (Hnull (default_unclaimed TNoneType)) in Hscalar.
    rewrite (Hscalar "boolean" "null"); [reflexivity | |];
      repeat split; discriminate.
  - destruct (optional_union default_Converter 1 (TLiteral [VStr "fast"])
                [("const", VStr "fast")] true)
      as (ns & nr & schema' & _ & Hnull & Hres & _ & Hother);
      [reflexivity | reflexivity | apply default_unclaimed | reflexivity |].
    rewrite Hres. rewrite (Hnull (default_unclaimed TNoneType)) in Hother.
    rewrite Hother; [reflexivity|]. left. left. reflexivity.
Defined.

(** [int | None]: the schema of the union is not the schema of [int]. *)
Lemma optional_union_counterexample :
  exists schema schema',
    _convert_core default_Converter 1 Tint = Ok (schema, true) /\
    _convert_core default_Converter 2 (TUnion [Tint; TNoneType])
    = Ok (schema', false) /\
    schema' <> schema.
Proof.
  exists [("type", VStr "integer")],
         [("type", VList [VStr "integer"; VStr "null"])].
  repeat split; discriminate.
Qed.

(** C4, at [Optional[Annotated[int | str, "doc"]]]. The annotated member
    converts to a schema whose [type] is already a list; the test of the
    scalar collapse lets it through, and the union's [type] list has that
    list as its first element, which is not a scalar kind name. *)
Theorem nested_type_list :
  let member := TAnnotated (TUnion [Tint; Tstr]) [VStr "doc"] in
  _convert_core default_Converter 3 member
  = Ok ([("type", VList [VStr "integer"; VStr "string"]);
         ("description", VStr "doc")], true) /\
  exists types,
    _convert_core default_Converter 4 (TUnion [member; TNoneType])
    = Ok ([("type", VList types)], false) /\
    types = [VList [VStr "integer"; VStr "string"]; VStr "null"] /\
    forallb ValueTypeItem types = false.
Proof.
  split; [reflexivity|].
  eexists. repeat split.
Qed.

(** ** Annotated types *)

Lemma first_str_found (pre : list value) (s : string) (post : list value) :
  Forall (fun x => is_str x = false) pre ->
  first_str (pre ++ VStr s :: post) = Some s.
Proof.
  induction 1 as [|x pre Hx _ IH]; cbn; [reflexivity|].
  destruct x; try exact IH. discriminate.
Qed.




(** ** Callables *)

Section FunctionLoop.
Variable self : _Converter.
Variable core : pytype -> result (dict * bool).

Lemma function_loop_app (pre post : list param) :
  forall properties required,
  function_loop self core (pre ++ post) properties required
  = pr <- function_loop self core pre properties required ;;
    function_loop self core post (fst pr) (snd pr).
Proof.
  induction pre as [|p pre IH]; intros properties required; cbn;
    [reflexivity|].
  destruct (skipped p); [apply IH|].
  destruct (test_annotation self p) as [ann|e]; cbn; [|reflexivity].
  destruct (core ann) as [r|e]; cbn; [|reflexivity].
  apply IH.
Qed.

Lemma function_loop_total (params : list param) :
  Forall (fun q => skipped q = true \/
                   exists ann r, test_annotation self q = Ok ann /\
                                 core ann = Ok r) params ->
  forall properties required,
  exists pr, function_loop self core params properties required = Ok pr.
Proof.
  induction 1 as [|q params Hq _ IH]; intros properties required; cbn.
  - now exists (properties, required).
  - destruct Hq as [-> | (ann & r & Hann & Hr)]; [apply IH|].
    destruct (skipped q); [apply IH|].
    rewrite Hann. cbn. rewrite Hr. cbn. apply IH.
Qed.

(** A parameter with neither annotation nor default stops the loop when
    the converter raises, ... *)
Lemma function_loop_missing_raise (p : param) (post : list param) :
  skipped p = false -> annotation p = None -> default p = None ->
  _raise_when_unsupported self = true ->
  forall properties required,
  function_loop self core (p :: post) properties required
  = Err (ValueError
           ("Parameter '" ++ name p ++ "' is missing a type annotation.")).
Proof.
  intros Hs Ha Hd Hr properties required. cbn. rewrite Hs.
  unfold test_annotation. now rewrite Ha, Hd, Hr.
Qed.

(** ... and is converted as a [dict] when it does not. *)
Lemma function_loop_missing_dict (p : param) (post : list param) :
  skipped p = false -> annotation p = None -> default p = None ->
  _raise_when_unsupported self = false ->
  forall properties required,
  function_loop self core (p :: post) properties required
  = function_loop self core (with_annotation Tdict p :: post)
      properties required.
Proof.
  intros Hs Ha Hd Hr properties required. cbn.
  unfold skipped in *. cbn. rewrite Hs.
  unfold test_annotation. cbn. now rewrite Ha, Hd, Hr.
Qed.
End FunctionLoop.

(** C5. An object that fits no rule makes the conversion raise the
    ValueError that names it when the converter was built to raise, and
    [typing_to_schema] then returns that error and no schema; otherwise the
    object converts to the bare object schema, required. A parameter that is not skipped and has neither
    annotation nor default follows the same switch: the ValueError names the
    parameter, or the parameter is converted as if annotated [dict], which
    (left to the built-in rules) gives it the bare object schema and lists it
    as required. An error raised for a member of a union is the error of the
    whole union. *)
Theorem unsupported_policy (self : _Converter) (depth : nat) :
  (forall repr, unclaimed self (TOther repr) ->
     (_raise_when_unsupported self = true ->
        _convert_core self (S depth) (TOther repr)
        = Err (ValueError ("Unsupported type: " ++ repr))) /\
     (_raise_when_unsupported self = false ->
        _convert_core self (S depth) (TOther repr)
        = Ok ([("type", VStr "object")], true))) /\
  (forall found has_schema type_handler doc_handler repr,
     unclaimed (__init__ found has_schema true type_handler doc_handler)
               (TOther repr) ->
     typing_to_schema found has_schema (S depth) (TOther repr)
       true type_handler doc_handler
     = Err (ValueError ("Unsupported type: " ++ repr))) /\
  (forall core doc pre p post,
     skipped p = false -> annotation p = None -> default p = None ->
     (_raise_when_unsupported self = true ->
        Forall (fun q => skipped q = true \/
                         exists ann r, test_annotation self q = Ok ann /\
                                       core ann = Ok r) pre ->
        _convert_function self core doc (pre ++ p :: post)
        = Err (ValueError
                 ("Parameter '" ++ name p ++ "' is missing a type annotation."))) /\
     (_raise_when_unsupported self = false ->
        _convert_function self core doc (pre ++ p :: post)
        = _convert_function self core doc
            (pre ++ with_annotation Tdict p :: post))) /\
  (forall p doc,
     skipped p = false -> annotation p = None -> default p = None ->
     _raise_when_unsupported self = false -> unclaimed self Tdict ->
     _convert_function self (_convert_core self (S depth)) doc [p]
     = Ok (with_doc doc
             (ObjectSchema [(name p, VDict [("type", VStr "object")])]
                           [VStr (name p)]), true)) /\
  (forall core pre a post e,
     Forall (fun x => exists r, core x = Ok r) pre -> core a = Err e ->
     _convert_union core (pre ++ a :: post) = Err e).
Proof.
  split; [|split; [|split; [|split]]].
  - intros repr Hun. split; intros Hr.
    + core_step Hun. now rewrite Hr.
    + core_step Hun. now rewrite Hr.
  - intros found has_schema type_handler doc_handler repr Hun.
    unfold typing_to_schema. now core_step Hun.
  - intros core doc pre p post Hs Ha Hd. split; intros Hr.
    + intros Hpre. unfold _convert_function. rewrite function_loop_app.
      destruct (function_loop_total self core pre Hpre [] []) as [pr ->].
      cbn [bind]. now rewrite function_loop_missing_raise.
    + unfold _convert_function. rewrite !function_loop_app.
      destruct (function_loop self core pre [] []) as [pr|e]; cbn [bind];
        [|reflexivity].
      now rewrite function_loop_missing_dict.
  - intros p doc Hs Ha Hd Hr Hun.
    unfold _convert_function. cbn [function_loop]. rewrite Hs.
    unfold test_annotation. rewrite Ha, Hd, Hr. cbn [negb bind].
    core_step Hun. reflexivity.
  - intros core pre a post e Hpre Ha. unfold _convert_union.
    assert (Hmap : mapM (fun ann => r <- core ann ;; Ok (fst r))
                     (pre ++ a :: post) = Err e).
    { apply mapM_first_error.
      - eapply Forall_impl; [|exact Hpre]. intros x [r Hx].
        exists (fst r). now rewrite Hx.
      - now rewrite Ha. }
    destruct pre as [|x [|y pre]]; cbn [app].
    + destruct post as [|b post]; [now rewrite Ha|].
      cbn [app] in Hmap. now rewrite Hmap.
    + cbn [app] in Hmap. now rewrite Hmap.
    + cbn [app] in Hmap. now rewrite Hmap.
Qed.

Lemma lenient_unclaimed (object : pytype) : unclaimed lenient_Converter object.
Proof. split; reflexivity. Qed.

Lemma unsupported_policy_witness :
  _convert_core default_Converter 1 (TOther "Ellipsis")
  = Err (ValueError "Unsupported type: Ellipsis") /\
  typing_to_schema false (fun _ => None) 1 (TOther "Ellipsis") true None None
  = Err (ValueError "Unsupported type: Ellipsis") /\
  _convert_core lenient_Converter 1 (TOther "Ellipsis")
  = Ok ([("type", VStr "object")], true) /\
  _convert_function default_Converter (_convert_core default_Converter 1)
    None bare_parameters
  = Err (ValueError "Parameter 'x' is missing a type annotation.") /\
  _convert_function lenient_Converter (_convert_core lenient_Converter 1)
    None [MkParam "x" POSITIONAL_OR_KEYWORD None None]
  = Ok (ObjectSchema [("x", VDict [("type", VStr "object")])] [VStr "x"], true).
Proof.
  destruct (unsupported_policy default_Converter 0)
    as (Hnode & Hentry & Hparam & _ & _).
  destruct (unsupported_policy lenient_Converter 0)
    as (Hnode' & _ & _ & Hdict & _).
  split; [|split; [|split; [|split]]].
  - apply (Hnode "Ellipsis"); [apply default_unclaimed | reflexivity].
  - apply (Hentry false (fun _ => None) None None "Ellipsis").
    apply default_unclaimed.
  - apply (Hnode' "Ellipsis"); [apply lenient_unclaimed | reflexivity].
  - apply (Hparam (_convert_core default_Converter 1) None
             [MkParam "a" POSITIONAL_OR_KEYWORD (Some Tint) None]
             (MkParam "x" POSITIONAL_OR_KEYWORD None None) []);
      try reflexivity.
    constructor; [|constructor]. right.
    exists Tint, ([("type", VStr "integer")], true). split; reflexivity.
  - apply (Hdict (MkParam "x" POSITIONAL_OR_KEYWORD None None) None);
      try reflexivity.
    apply lenient_unclaimed.
Defined.

Lemma skipped_variadic_or_self (p : param) :
  skipped p = true <-> variadic_or_self p.
Proof.
  unfold skipped, variadic_or_self. split.
  - destruct (kind p); auto; intros H; apply String.eqb_eq in H; auto.
  - intros [H | [H | H]]; try now rewrite H.
    rewrite H. now destruct (kind p).
Qed.

Lemma not_skipped_variadic_or_self (p : param) :
  skipped p = false <-> ~ variadic_or_self p.
Proof.
  rewrite <- skipped_variadic_or_self. now destruct (skipped p).
Qed.

Lemma declared_type_test_annotation (self : _Converter) (p : param)
    (ann : pytype) :
  declared_type p = Some ann -> test_annotation self p = Ok ann.
Proof.
  unfold declared_type, test_annotation.
  destruct (annotation p); [now intros [=->]|].
  destruct (default p); cbn; [now intros [=->] | discriminate].
Qed.

Section Keys.
Context {A : Type} (key : A -> string).

Lemma NoDup_key_inj (l : list A) (x y : A) :
  NoDup (map key l) -> In x l -> In y l -> key x = key y -> x = y.
Proof.
  induction l as [|a l IH]; cbn; [contradiction|].
  intros Hnd [<-|Hx] [<-|Hy] Heq; inversion_clear Hnd as [|? ? Hnotin Hnd'];
    auto.
  - exfalso. apply Hnotin. rewrite Heq. now apply in_map.
  - exfalso. apply Hnotin. rewrite <- Heq. now apply in_map.
Qed.

Lemma NoDup_key_filter (keep : A -> bool) (l : list A) :
  NoDup (map key l) -> NoDup (map key (filter keep l)).
Proof.
  induction l as [|a l IH]; cbn; intros Hnd; [constructor|].
  inversion_clear Hnd as [|? ? Hnotin Hnd'].
  destruct (keep a); cbn; [|auto].
  constructor; [|auto].
  intros Hin. apply Hnotin. apply in_map_iff in Hin as (x & Hx & Hin).
  apply filter_In in Hin as [Hin _]. rewrite <- Hx. now apply in_map.
Qed.
End Keys.

Lemma dict_get_absent (k : string) (d : dict) :
  ~ In k (map fst d) -> dict_get k d = None.
Proof.
  induction d as [|[k' v] d IH]; cbn; [reflexivity|].
  intros Hnotin. destruct (String.eqb k k') eqn:E.
  - apply String.eqb_eq in E. exfalso. apply Hnotin. now left.
  - apply IH. intros Hin. apply Hnotin. now right.
Qed.

Lemma dict_get_present (k : string) (v : value) (d : dict) :
  NoDup (map fst d) -> In (k, v) d -> dict_get k d = Some v.
Proof.
  induction d as [|[k' v'] d IH]; cbn; [contradiction|].
  intros Hnd Hin. inversion_clear Hnd as [|? ? Hnotin Hnd'].
  destruct Hin as [[= -> ->]|Hin].
  - now rewrite String.eqb_refl.
  - destruct (String.eqb k k') eqn:E; [|auto].
    apply String.eqb_eq in E; subst k'. exfalso. apply Hnotin.
    change k with (fst (k, v)). now apply in_map.
Qed.

Section FunctionProperties.
Variable self : _Converter.
Variable core : pytype -> result (dict * bool).
Variable conv : param -> dict * bool.

(** The loop appends one property per parameter it does not skip, and
    the names of those among them that are required and have no
    default. *)
Lemma function_loop_appends (params : list param) :
  NoDup (map name params) ->
  (forall p, In p params -> skipped p = false ->
     exists ann, declared_type p = Some ann /\ core ann = Ok (conv p)) ->
  forall properties required,
  (forall p, In p params -> dict_get (name p) properties = None) ->
  function_loop self core params properties required
  = Ok (properties
          ++ map (entry conv) (filter (fun p => negb (skipped p)) params),
        required
          ++ map (fun p => VStr (name p)) (filter (listed conv) params)).
Proof.
  induction params as [|p params IH]; intros Hnd Hconv properties required
    Hfresh.
  - cbn. now rewrite !app_nil_r.
  - inversion_clear Hnd as [|? ? Hnotin Hnd'].
    assert (Hconv' : forall q, In q params -> skipped q = false ->
               exists ann, declared_type q = Some ann /\
                           core ann = Ok (conv q))
      by (intros q Hq; apply Hconv; now right).
    cbn [function_loop filter]. unfold listed at 1.
    destruct (skipped p) eqn:Hs; cbn [negb andb].
    + apply IH; auto. intros q Hq. apply Hfresh. now right.
    + destruct (Hconv p (or_introl eq_refl) Hs) as (ann & Hann & Hr).
      rewrite (declared_type_test_annotation self p ann Hann).
      cbn [bind]. rewrite Hr. cbn [bind].
      rewrite (dict_set_fresh (name p)) by (apply Hfresh; now left).
      fold (attach_default p (fst (conv p))).
      rewrite IH; auto.
      * f_equal. f_equal.
        -- cbn [map]. unfold entry at 2. now rewrite <- app_assoc.
        -- destruct (snd (conv p) && is_empty (default p)); cbn [map];
             [now rewrite <- app_assoc | reflexivity].
      * intros q Hq. rewrite dict_get_app, Hfresh by now right.
        cbn. destruct (String.eqb (name q) (name p)) eqn:E; [|reflexivity].
        apply String.eqb_eq in E. exfalso. apply Hnotin. rewrite <- E.
        now apply in_map.
Qed.
End FunctionProperties.

(** C6. Of a callable whose parameters, but for [*args], [**kwargs] and
    [self], have a declared type or a default value, the conversion returns
    the object schema whose properties are those parameters, in order, and
    nothing else. Each is mapped to the schema of its declared type, or of
    the type of its default value when no type is declared, with the default
    value, if any, added under [default]. A parameter is listed in
    [required] exactly when it has no default value and the conversion of
    its type reported required=true. *)
Theorem function_parameters (self : _Converter)
    (core : pytype -> result (dict * bool)) (doc : option string)
    (parameters : list param) (conv : param -> dict * bool) :
  NoDup (map name parameters) ->
  (forall p, In p parameters -> ~ variadic_or_self p ->
     exists ann, declared_type p = Some ann /\ core ann = Ok (conv p)) ->
  exists properties required,
    _convert_function self core doc parameters
    = Ok (with_doc doc (ObjectSchema properties required), true) /\
    map fst properties
    = map name (filter (fun p => negb (skipped p)) parameters) /\
    forall p, In p parameters ->
      (variadic_or_self p ->
         dict_get (name p) properties = None /\
         ~ In (VStr (name p)) required) /\
      (~ variadic_or_self p ->
         (default p = None ->
            dict_get (name p) properties = Some (VDict (fst (conv p)))) /\
         (forall d, default p = Some d ->
            dict_get (name p) properties
            = Some (VDict (dict_set "default" d (fst (conv p))))) /\
         (In (VStr (name p)) required <->
            default p = None /\ snd (conv p) = true)).
Proof.
  intros Hnd Hconv.
  set (kept := filter (fun p => negb (skipped p)) parameters).
  exists (map (entry conv) kept),
         (map (fun p => VStr (name p)) (filter (listed conv) parameters)).
  assert (Hkeys : map fst (map (entry conv) kept) = map name kept).
  { rewrite map_map. reflexivity. }
  assert (Hlisted : forall p, In p parameters ->
            (In (VStr (name p))
                (map (fun p => VStr (name p)) (filter (listed conv) parameters))
             <-> listed conv p = true)).
  { intros p Hp. split.
    - intros Hin. apply in_map_iff in Hin as (q & [= Hq] & Hin).
      apply filter_In in Hin as [Hin Hl].
      now rewrite <- (NoDup_key_inj name parameters q p Hnd Hin Hp Hq).
    - intros Hl.
      apply (in_map (fun p => VStr (name p))). apply filter_In. now split. }
  split; [|split].
  - unfold _convert_function.
    rewrite (function_loop_appends self core conv parameters Hnd); auto.
    intros p Hp Hs. apply Hconv; [exact Hp|].
    now apply not_skipped_variadic_or_self.
  - exact Hkeys.
  - intros p Hp. split.
    + intros Hv. apply skipped_variadic_or_self in Hv. split.
      * apply dict_get_absent. rewrite Hkeys. intros Hin.
        apply in_map_iff in Hin as (q & Hq & Hin).
        apply filter_In in Hin as [Hin Hkeep].
        rewrite (NoDup_key_inj name parameters q p Hnd Hin Hp Hq) in Hkeep.
        now rewrite Hv in Hkeep.
      * rewrite (Hlisted p Hp). unfold listed. now rewrite Hv.
    + intros Hv. apply not_skipped_variadic_or_self in Hv.
      assert (Hget : dict_get (name p) (map (entry conv) kept)
                     = Some (VDict (attach_default p (fst (conv p))))).
      { apply dict_get_present.
        - rewrite Hkeys. now apply NoDup_key_filter.
        - apply (in_map (entry conv)). apply filter_In. split; [exact Hp|].
          now rewrite Hv. }
      unfold attach_default in Hget. split; [|split].
      * intros Hd. now rewrite Hd in Hget.
      * intros d Hd. now rewrite Hd in Hget.
      * rewrite (Hlisted p Hp). unfold listed. rewrite Hv. cbn [negb andb].
        destruct (snd (conv p)), (default p); cbn; split;
          try tauto; try discriminate; intros [? ?]; discriminate.
Qed.

(** [def handler(a: int, b: str = "x")] *)
Lemma function_parameters_witness :
  exists properties required,
    _convert_function default_Converter (_convert_core default_Converter 1)
      (Some "Example handler") handler_parameters
    = Ok ([("type", VStr "object"); ("properties", VDict properties);
           ("required", VList required);
           ("description", VStr "Example handler")], true) /\
    dict_get "a" properties = Some (VDict [("type", VStr "integer")]) /\
    dict_get "b" properties
    = Some (VDict [("type", VStr "string"); ("default", VStr "x")]) /\
    In (VStr "a") required /\ ~ In (VStr "b") required.
Proof.
  pose (pa := MkParam "a" POSITIONAL_OR_KEYWORD (Some Tint) (@None value)).
  pose (pb := MkParam "b" POSITIONAL_OR_KEYWORD (Some Tstr) (Some (VStr "x"))).
  destruct (function_parameters default_Converter
              (_convert_core default_Converter 1) (Some "Example handler")
              handler_parameters
              (fun p => if String.eqb (name p) "a"
                        then ([("type", VStr "integer")], true)
                        else ([("type", VStr "string")], true)))
    as (properties & required & Hres & _ & Hparams).
  - repeat constructor; cbn; intuition discriminate.
  - intros p [<-|[<-|[]]] _; eexists; split; reflexivity.
  - exists properties, required.
    assert (Hna : ~ variadic_or_self pa)
      by (intros [H|[H|H]]; discriminate).
    assert (Hnb : ~ variadic_or_self pb)
      by (intros [H|[H|H]]; discriminate).
    destruct (Hparams pa (or_introl eq_refl)) as [_ Ha].
    destruct (Hparams pb (or_intror (or_introl eq_refl))) as [_ Hb].
    destruct (Ha Hna) as (Ha1 & _ & Ha3).
    destruct (Hb Hnb) as (_ & Hb2 & Hb3).
    split; [exact Hres|]. split; [exact (Ha1 eq_refl)|].
    split; [exact (Hb2 (VStr "x") eq_refl)|]. split.
    + apply Ha3. split; reflexivity.
    + intros Hin. apply Hb3 in Hin as [Hd _]. discriminate.
Defined.

(** * Further properties *)

(** ** Arrays *)

(** X1. A subscripted [list], [tuple] or [set] converts to an array schema
    that is required whatever its elements are, and the same for the three
    origins. Without type arguments ([tuple[()]]) the items are the null
    Value schema; with one, the items are that argument's schema, the
    argument's own requiredness being dropped; with two or more, the items
    are the Value schema whose [type] lists the arguments' types in order,
    repetitions kept (as for [tuple[int, int]]), when every argument's
    schema has a string [type] other than ["array"] and ["object"], and
    [oneOf] over the arguments' schemas when one of them has no [type], or
    type ["array"] or ["object"]. *)
Theorem array_items (self : _Converter) (depth : nat) (o : origin)
    (args : list pytype) :
  o <> Odict ->
  unclaimed self (TGeneric o args) ->
  (args = [] ->
   _convert_core self (S depth) (TGeneric o args)
   = Ok ([("type", VStr "array"); ("items", VDict [("type", VStr "null")])],
         true)) /\
  (forall a schema required, args = [a] ->
   _convert_core self depth a = Ok (schema, required) ->
   _convert_core self (S depth) (TGeneric o args)
   = Ok ([("type", VStr "array"); ("items", VDict schema)], true)) /\
  (forall schemas, 2 <= length args ->
   Forall2 (fun ann s => exists r, _convert_core self depth ann = Ok (s, r))
           args schemas ->
   (forall kinds, Forall2 typed_as schemas kinds ->
      _convert_core self (S depth) (TGeneric o args)
      = Ok ([("type", VStr "array");
             ("items", VDict [("type", VList (map VStr kinds))])], true)) /\
   (Exists not_scalar_typed schemas ->
      _convert_core self (S depth) (TGeneric o args)
      = Ok ([("type", VStr "array");
             ("items", VDict [("oneOf", VList (map VDict schemas))])], true))).
Proof.
  intros Ho Hun.
  assert (Hstep : _convert_core self (S depth) (TGeneric o args)
                  = r <- _convert_union (_convert_core self depth) args ;;
                    Ok (ArraySchema (fst r), true)).
  { core_step Hun. destruct o; try reflexivity. congruence. }
  rewrite Hstep. split; [|split].
  - now intros ->.
  - intros a schema required -> Ha. unfold _convert_union.
    now rewrite Ha.
  - intros schemas Hlen Hconv. split.
    + intros kinds Hkinds.
      now rewrite (_convert_union_scalar _ args schemas kinds Hlen Hconv Hkinds).
    + intros Hex.
      now rewrite (_convert_union_oneOf _ args schemas Hlen Hconv Hex).
Qed.

Lemma array_items_witness :
  _convert_core default_Converter 1 (TGeneric Otuple [])
  = Ok ([("type", VStr "array"); ("items", VDict [("type", VStr "null")])],
        true) /\
  _convert_core default_Converter 3 (TGeneric Olist [TUnion [Tint; TNoneType]])
  = Ok ([("type", VStr "array");
         ("items", VDict [("type", VList [VStr "integer"; VStr "null"])])],
        true) /\
  _convert_core default_Converter 2 (TGeneric Otuple [Tint; Tint])
  = Ok ([("type", VStr "array");
         ("items", VDict [("type", VList [VStr "integer"; VStr "integer"])])],
        true).
Proof.
  split; [|split].
  - destruct (array_items default_Converter 0 Otuple []) as (H & _ & _);
      [discriminate | apply default_unclaimed | now apply H].
  - destruct (array_items default_Converter 2 Olist [TUnion [Tint; TNoneType]])
      as (_ & H & _); [discriminate | apply default_unclaimed |].
    apply (H (TUnion [Tint; TNoneType])
             [("type", VList [VStr "integer"; VStr "null"])] false);
      reflexivity.
  - destruct (array_items default_Converter 1 Otuple [Tint; Tint])
      as (_ & _ & H); [discriminate | apply default_unclaimed |].
    destruct (H [ValueSchema (VStr "integer"); ValueSchema (VStr "integer")])
      as [Hcollapse _].
    + cbn. lia.
    + repeat constructor; eexists; reflexivity.
    + apply (Hcollapse ["integer"; "integer"]).
      repeat constructor; discriminate.
Defined.

(** ** Records *)

Section RecordProperties.
Variable core : pytype -> result (dict * bool).
Variable conv : pytype -> dict * bool.

End RecordProperties.




(** ** The errors of the conversion *)

Lemma bind_raises_only {A B : Type} (P : error -> Prop)
    (r : result A) (k : A -> result B) :
  raises_only P r -> (forall a, r = Ok a -> raises_only P (k a)) ->
  raises_only P (bind r k).
Proof.
  intros Hr Hk e. destruct r as [a|e']; cbn.
  - now apply Hk.
  - intros [= ->]. now apply Hr.
Qed.

Lemma Ok_raises_only {A : Type} (P : error -> Prop) (a : A) :
  raises_only P (Ok a).
Proof. intros e H. discriminate. Qed.

Lemma mapM_raises_only {A B : Type} (P : error -> Prop)
    (f : A -> result B) (l : list A) :
  (forall a, In a l -> raises_only P (f a)) -> raises_only P (mapM f l).
Proof.
  induction l as [|a l IH]; cbn; intros H; [apply Ok_raises_only|].
  apply bind_raises_only; [apply H; now left|]. intros b _.
  apply bind_raises_only; [apply IH; intros; apply H; now right|].
  intros bs _. apply Ok_raises_only.
Qed.

Section RaisesOnly.
Variable self : _Converter.
Variable core : pytype -> result (dict * bool).
Variable P : error -> Prop.
Hypothesis Hcore : forall object, raises_only P (core object).

(** The collapse adds no error of its own: the subscription [s["type"]] is
    only reached when every schema has the key. *)
Lemma _convert_union_raises_only (annotations : list pytype) :
  raises_only P (_convert_union core annotations).
Proof.
  unfold _convert_union.
  destruct annotations as [|a [|b annotations]].
  - apply Ok_raises_only.
  - apply bind_raises_only; [apply Hcore|]. intros r _. apply Ok_raises_only.
  - apply bind_raises_only.
    + apply mapM_raises_only. intros ann _.
      apply bind_raises_only; [apply Hcore|]. intros r _.
      apply Ok_raises_only.
    + intros schemas _.
      destruct (forallb has_scalar_type schemas) eqn:Hall;
        [|apply Ok_raises_only].
      destruct (getitem_type_defined schemas Hall) as [types ->].
      apply Ok_raises_only.
Qed.

Lemma record_loop_raises_only (annotations : list (string * pytype)) :
  forall properties required,
  raises_only P (record_loop core annotations properties required).
Proof.
  induction annotations as [|[key ann] annotations IH];
    intros properties required; cbn [record_loop]; [apply Ok_raises_only|].
  apply bind_raises_only; [apply Hcore|]. intros r _. apply IH.
Qed.

(** The loop over the parameters adds one error of its own, and only in a
    converter that raises. *)
Lemma function_loop_raises_only (params : list param) :
  (_raise_when_unsupported self = true ->
   forall name,
     P (ValueError
          ("Parameter '" ++ name ++ "' is missing a type annotation."))) ->
  forall properties required,
  raises_only P (function_loop self core params properties required).
Proof.
  intros Hmissing.
  induction params as [|p params IH]; intros properties required;
    cbn [function_loop]; [apply Ok_raises_only|].
  destruct (skipped p); [apply IH|].
  apply bind_raises_only.
  - unfold test_annotation.
    destruct (annotation p); [apply Ok_raises_only|].
    destruct (default p); [apply Ok_raises_only|].
    destruct (_raise_when_unsupported self) eqn:Hr; cbn [negb];
      [|apply Ok_raises_only].
    intros e [= <-]. now apply Hmissing.
  - intros ann _. apply bind_raises_only; [apply Hcore|].
    intros r _. apply IH.
Qed.
End RaisesOnly.

(** What holds of a cut-off conversion and, in a converter that raises, of
    its two ValueErrors, holds of every error of [_convert_core]. *)
Lemma _convert_core_raises_only (self : _Converter) (P : error -> Prop) :
  P RecursionError ->
  (_raise_when_unsupported self = true ->
   forall e, conversion_error e -> P e) ->
  forall depth object, raises_only P (_convert_core self depth object).
Proof.
  intros Hcut Hown.
  induction depth as [|depth IH]; intros object.
  - now intros e [= <-].
  - rewrite _convert_core_S. unfold convert_node.
    destruct (custom_schema self object); [apply Ok_raises_only|].
    destruct (pydantic_schema self object); [apply Ok_raises_only|].
    destruct object as [| | | | | | |args|o args|inner metadata|args|values
                        |doc annotations|doc parameters|repr];
      try apply Ok_raises_only.
    + now apply _convert_union_raises_only.
    + destruct o; try apply Ok_raises_only;
        (apply bind_raises_only;
         [now apply _convert_union_raises_only
         | intros r _; apply Ok_raises_only]).
    + cbn [fst]. apply bind_raises_only; [apply IH|]. intros r _.
      destruct (negb (dict_has "description" (fst r)));
        [|apply Ok_raises_only].
      destruct (to_doc self (inner, metadata)) as [d|];
        [|apply Ok_raises_only].
      destruct (truthy_str (Some d)); apply Ok_raises_only.
    + destruct args as [|v [|w args]]; apply Ok_raises_only.
    + apply bind_raises_only; [now apply record_loop_raises_only|].
      intros pr _. apply Ok_raises_only.
    + unfold _convert_function. apply bind_raises_only.
      * apply function_loop_raises_only; [exact IH|].
        intros Hr name. apply (Hown Hr). right. now exists name.
      * intros pr _. apply Ok_raises_only.
    + destruct (_raise_when_unsupported self) eqn:Hr;
        [|apply Ok_raises_only].
      intros e [= <-]. apply (Hown eq_refl). left. now exists repr.
Qed.

Lemma RecursionError_not_conversion_error : ~ conversion_error RecursionError.
Proof. intros [[repr H]|[name H]]; discriminate. Qed.

(** X4. Called with [raise_when_unsupported=False], neither
    [typing_to_schema] nor [function_to_schema] raises one of the two
    ValueErrors of the converter, the one that names an unsupported type and
    the one that names a parameter without annotation, whatever the
    annotation, the callable and the handlers. *)
Theorem lenient_never_raises (found : bool)
    (has_schema : pytype -> option dict) (depth : nat)
    (type_handler : option (pytype -> option dict))
    (doc_handler : option (pytype * list value -> option string)) :
  (forall object e,
     typing_to_schema found has_schema depth object false type_handler
       doc_handler = Err e ->
     ~ conversion_error e) /\
  (forall doc parameters e,
     function_to_schema found has_schema depth doc parameters false
       type_handler doc_handler = Err e ->
     ~ conversion_error e).
Proof.
  set (self := __init__ found has_schema false type_handler doc_handler).
  assert (Hcore : forall d object,
            raises_only (fun e => ~ conversion_error e)
                        (_convert_core self d object)).
  { apply _convert_core_raises_only.
    - exact RecursionError_not_conversion_error.
    - discriminate. }
  split.
  - intros object. unfold typing_to_schema. fold self.
    apply (bind_raises_only (fun e => ~ conversion_error e));
      [apply Hcore|].
    intros r _. apply Ok_raises_only.
  - intros doc parameters. unfold function_to_schema. fold self.
    apply (bind_raises_only (fun e => ~ conversion_error e));
      [|intros r _; apply Ok_raises_only].
    unfold _convert_function. apply bind_raises_only.
    + apply function_loop_raises_only; [apply Hcore | discriminate].
    + intros pr _. apply Ok_raises_only.
Qed.

(** With [raise_when_unsupported=False], [tuple[int, ...]] and a parameter
    with neither annotation nor default are converted; the only error left
    in the model is that of a conversion cut off for want of depth. *)
Lemma lenient_never_raises_witness :
  typing_to_schema false (fun _ => None) 2
    (TGeneric Otuple [Tint; TOther "Ellipsis"]) false None None
  = Ok [("type", VStr "array");
        ("items", VDict [("oneOf", VList [VDict [("type", VStr "integer")];
                                          VDict [("type", VStr "object")]])])] /\
  typing_to_schema false (fun _ => None) 1
    (TGeneric Otuple [Tint; TOther "Ellipsis"]) false None None
  = Err RecursionError /\
  ~ conversion_error RecursionError.
Proof.
  split; [reflexivity|]. split; [reflexivity|].
  destruct (lenient_never_raises false (fun _ => None) 1 None None)
    as [Htype _].
  apply (Htype (TGeneric Otuple [Tint; TOther "Ellipsis"])). reflexivity.
Defined.

(** X5. The subscription [s["type"]] of the union collapse never raises
    KeyError, whatever the member schemas are (those of a type handler
    included, with or without a [type]): [_convert_union] raises a KeyError
    only if the conversion of a member does, and [_convert_core] raises
    none. *)
Theorem never_KeyError (key : string) :
  (forall core annotations,
     (forall a, core a <> Err (KeyError key)) ->
     _convert_union core annotations <> Err (KeyError key)) /\
  (forall self depth object,
     _convert_core self depth object <> Err (KeyError key)).
Proof.
  split.
  - intros core annotations Hcore H.
    apply (_convert_union_raises_only core (fun e => e <> KeyError key))
      in H; [now apply H|].
    intros object e He ->. now apply (Hcore object).
  - intros self depth object H.
    apply (_convert_core_raises_only self (fun e => e <> KeyError key))
      in H; [now apply H | discriminate |].
    intros _ e [[repr ->]|[name ->]]; discriminate.
Qed.

(** A type handler that answers [int] with a schema without [type]: the
    union of [int] and [str] is a [oneOf]. *)
Lemma never_KeyError_witness :
  let handler := fun object => match object with
                               | Tint => Some [("description", VStr "whole")]
                               | _ => None
                               end in
  let self := __init__ false (fun _ => None) true (Some handler) None in
  _convert_union (_convert_core self 1) [Tint; Tstr]
  = Ok ([("oneOf", VList [VDict [("description", VStr "whole")];
                          VDict [("type", VStr "string")]])], true) /\
  _convert_union (_convert_core self 1) [Tint; Tstr] <> Err (KeyError "type").
Proof.
  intros handler self. split; [reflexivity|].
  destruct (never_KeyError "type") as [Hunion Hcore].
  apply Hunion. intros a. apply Hcore.
Defined.

(** X6. An error raised for a child is the error of the node, schema and
    all: for the wrapped type of an [Annotated]; for the first type
    argument of a [list], [tuple] or [set] that fails; for the first field
    of a TypedDict or dataclass that fails; and for the first parameter of
    a callable whose type fails, the parameters before it being passed over
    or converted. *)
Theorem child_error_propagates (self : _Converter) (depth : nat) (e : error) :
  (forall inner metadata,
     unclaimed self (TAnnotated inner metadata) ->
     _convert_core self depth inner = Err e ->
     _convert_core self (S depth) (TAnnotated inner metadata) = Err e) /\
  (forall o pre a post,
     o <> Odict -> unclaimed self (TGeneric o (pre ++ a :: post)) ->
     Forall (converts (_convert_core self depth)) pre ->
     _convert_core self depth a = Err e ->
     _convert_core self (S depth) (TGeneric o (pre ++ a :: post)) = Err e) /\
  (forall doc pre key a post,
     unclaimed self (TRecord doc (pre ++ (key, a) :: post)) ->
     Forall (fun field => converts (_convert_core self depth) (snd field)) pre ->
     _convert_core self depth a = Err e ->
     _convert_core self (S depth) (TRecord doc (pre ++ (key, a) :: post))
     = Err e) /\
  (forall doc pre p ann post,
     unclaimed self (TCallable doc (pre ++ p :: post)) ->
     Forall (parameter_converts self (_convert_core self depth)) pre ->
     skipped p = false -> test_annotation self p = Ok ann ->
     _convert_core self depth ann = Err e ->
     _convert_core self (S depth) (TCallable doc (pre ++ p :: post)) = Err e).
Proof.
  split; [|split; [|split]].
  - intros inner metadata Hun He. core_step Hun. cbn [fst]. now rewrite He.
  - intros o pre a post Ho Hun Hpre He.
    assert (Hu : _convert_union (_convert_core self depth) (pre ++ a :: post)
                 = Err e).
    { unfold _convert_union.
      assert (Hmap : mapM (fun ann => r <- _convert_core self depth ann ;;
                                      Ok (fst r))
                       (pre ++ a :: post) = Err e).
      { apply mapM_first_error.
        - eapply Forall_impl; [|exact Hpre]. intros x [r Hx].
          exists (fst r). now rewrite Hx.
        - now rewrite He. }
      destruct pre as [|x [|y pre]]; cbn [app] in *.
      - destruct post as [|b post]; [now rewrite He | now rewrite Hmap].
      - now rewrite Hmap.
      - now rewrite Hmap. }
    core_step Hun. rewrite Hu. destruct o; try reflexivity. congruence.
  - intros doc pre key a post Hun Hpre He. core_step Hun.
    assert (Hloop : forall properties required,
              record_loop (_convert_core self depth) (pre ++ (key, a) :: post)
                properties required = Err e).
    { clear - Hpre He. induction Hpre as [|[k t] pre [r Hr] _ IH];
        intros properties required; cbn [app record_loop].
      - now rewrite He.
      - cbn [snd] in Hr. rewrite Hr. cbn [bind]. apply IH. }
    now rewrite Hloop.
  - intros doc pre p ann post Hun Hpre Hs Hann He. core_step Hun.
    unfold _convert_function. rewrite function_loop_app.
    destruct (function_loop_total self (_convert_core self depth) pre Hpre
                [] []) as [pr ->].
    cbn [bind function_loop]. rewrite Hs, Hann. cbn [bind]. now rewrite He.
Qed.

(** A dataclass with a field of a type that fits no rule. *)
Lemma child_error_propagates_witness :
  _convert_core default_Converter 2
    (TRecord None [("id", Tint); ("when", TOther "datetime")])
  = Err (ValueError "Unsupported type: datetime").
Proof.
  destruct (child_error_propagates default_Converter 1
              (ValueError "Unsupported type: datetime"))
    as (_ & _ & Hrecord & _).
  apply (Hrecord None [("id", Tint)] "when" (TOther "datetime") []).
  - apply default_unclaimed.
  - repeat constructor. eexists; reflexivity.
  - reflexivity.
Defined.

(** ** Entry points *)





(** X8. A callable all of whose parameters are [*args], [**kwargs] or
    [self], or that has none, converts to the object schema with no
    property and an empty [required]; nothing is converted for it, so that
    it raises nothing whatever the converter. *)
Theorem no_parameter_left (self : _Converter)
    (core : pytype -> result (dict * bool)) (doc : option string)
    (parameters : list param) :
  Forall variadic_or_self parameters ->
  _convert_function self core doc parameters
  = Ok (with_doc doc
          [("type", VStr "object"); ("properties", VDict []);
           ("required", VList [])], true).
Proof.
  intros Hall. unfold _convert_function.
  assert (Hloop : forall properties required,
            function_loop self core parameters properties required
            = Ok (properties, required)).
  { induction Hall as [|p parameters Hp _ IH]; intros properties required;
      cbn [function_loop]; [reflexivity|].
    apply skipped_variadic_or_self in Hp. rewrite Hp. apply IH. }
  now rewrite Hloop.
Qed.

Lemma no_parameter_left_witness :
  _convert_function default_Converter (fun _ => Err RecursionError)
    None method_parameters
  = Ok ([("type", VStr "object"); ("properties", VDict []);
         ("required", VList [])], true).
Proof.
  apply (no_parameter_left default_Converter (fun _ => Err RecursionError)
           None method_parameters).
  constructor; [right; right; reflexivity|].
  constructor; [left; reflexivity|].
  constructor; [right; left; reflexivity|].
  constructor.
Defined.

(** ** The built-in doc extractor *)

(** X9. With the built-in extractor only the first [str] of the metadata
    counts: when it is the empty string, the annotated type converts to
    exactly what the wrapped type converts to, and no later string of the
    metadata becomes the description. *)
Theorem empty_first_doc (found : bool) (has_schema : pytype -> option dict)
    (raising : bool) (type_handler : option (pytype -> option dict))
    (depth : nat) (inner : pytype) (pre post : list value)
    (schema : dict) (required : bool) :
  let self := __init__ found has_schema raising type_handler None in
  unclaimed self (TAnnotated inner (pre ++ VStr "" :: post)) ->
  Forall (fun x => is_str x = false) pre ->
  _convert_core self depth inner = Ok (schema, required) ->
  _convert_core self (S depth) (TAnnotated inner (pre ++ VStr "" :: post))
  = Ok (schema, required).
Proof.
  intros self Hun Hpre Hconv. core_step Hun. cbn [fst]. rewrite Hconv.
  cbn [bind fst snd].
  destruct (dict_has "description" schema); cbn [negb]; [reflexivity|].
  unfold self, __init__, _hande_annotated_doc. cbn [to_doc snd].
  now rewrite (first_str_found pre "" post Hpre).
Qed.

(** [Annotated[int, 1, "", "doc"]] *)
Lemma empty_first_doc_witness :
  _convert_core default_Converter 2
    (TAnnotated Tint [VInt 1; VStr ""; VStr "doc"])
  = Ok ([("type", VStr "integer")], true).
Proof.
  apply (empty_first_doc false (fun _ => None) true None 1 Tint
           [VInt 1] [VStr "doc"] [("type", VStr "integer")] true).
  - apply default_unclaimed.
  - repeat constructor.
  - reflexivity.
Defined.

(** ** Converters that answer alike *)

Lemma mapM_ext {A B : Type} (f g : A -> result B) (l : list A) :
  (forall a, f a = g a) -> mapM f l = mapM g l.
Proof.
  intros H. induction l as [|a l IH]; cbn; [reflexivity|].
  now rewrite H, IH.
Qed.

Section SameAnswers.
Variables self1 self2 : _Converter.
Variables core1 core2 : pytype -> result (dict * bool).
Hypothesis Hsame : same_answers self1 self2.
Hypothesis Hcore : forall object, core1 object = core2 object.

Lemma _convert_union_same (annotations : list pytype) :
  _convert_union core1 annotations = _convert_union core2 annotations.
Proof.
  unfold _convert_union.
  destruct annotations as [|a [|b annotations]]; [reflexivity| |].
  - now rewrite Hcore.
  - rewrite (mapM_ext (fun ann => r <- core1 ann ;; Ok (fst r))
                      (fun ann => r <- core2 ann ;; Ok (fst r)));
      [reflexivity|].
    intros ann. now rewrite Hcore.
Qed.

Lemma test_annotation_same (p : param) :
  test_annotation self1 p = test_annotation self2 p.
Proof.
  destruct Hsame as (_ & _ & _ & Hr). unfold test_annotation.
  now rewrite Hr.
Qed.

Lemma function_loop_same (params : list param) :
  forall properties required,
  function_loop self1 core1 params properties required
  = function_loop self2 core2 params properties required.
Proof.
  induction params as [|p params IH]; intros properties required;
    cbn [function_loop]; [reflexivity|].
  destruct (skipped p); [apply IH|].
  rewrite test_annotation_same.
  destruct (test_annotation self2 p) as [ann|e]; cbn [bind]; [|reflexivity].
  rewrite Hcore. destruct (core2 ann) as [r|e]; cbn [bind]; [|reflexivity].
  apply IH.
Qed.

Lemma record_loop_same (annotations : list (string * pytype)) :
  forall properties required,
  record_loop core1 annotations properties required
  = record_loop core2 annotations properties required.
Proof.
  induction annotations as [|[key ann] annotations IH];
    intros properties required; cbn [record_loop]; [reflexivity|].
  rewrite Hcore. destruct (core2 ann) as [r|e]; cbn [bind]; [|reflexivity].
  apply IH.
Qed.

Lemma convert_node_same (object : pytype) :
  convert_node self1 core1 object = convert_node self2 core2 object.
Proof.
  destruct Hsame as (Hc & Hp & Hd & Hr). unfold convert_node.
  rewrite Hc, Hp.
  destruct (custom_schema self2 object); [reflexivity|].
  destruct (pydantic_schema self2 object); [reflexivity|].
  destruct object as [| | | | | | |args|o args|inner metadata|args|values
                      |doc annotations|doc parameters|repr];
    try reflexivity.
  - apply _convert_union_same.
  - now rewrite _convert_union_same.
  - cbn [fst]. now rewrite Hcore, Hd.
  - now rewrite record_loop_same.
  - unfold _convert_function. now rewrite function_loop_same.
  - now rewrite Hr.
Qed.
End SameAnswers.

Lemma _convert_core_same (self1 self2 : _Converter) (depth : nat) :
  same_answers self1 self2 ->
  forall object,
  _convert_core self1 depth object = _convert_core self2 depth object.
Proof.
  intros Hsame. induction depth as [|depth IH]; intros object;
    [reflexivity|].
  rewrite !_convert_core_S. now apply convert_node_same.
Qed.

(** X10. In an interpreter without pydantic the [model_json_schema]
    attribute of an object, or of anything nested in it, is never used:
    [typing_to_schema] and [function_to_schema] return the same whatever
    the objects that have one and whatever it returns. *)
Theorem without_pydantic (has_schema has_schema' : pytype -> option dict)
    (limit : nat) (raising : bool)
    (type_handler : option (pytype -> option dict))
    (doc_handler : option (pytype * list value -> option string)) :
  (forall object,
     typing_to_schema false has_schema limit object raising type_handler
       doc_handler
     = typing_to_schema false has_schema' limit object raising type_handler
         doc_handler) /\
  (forall doc parameters,
     function_to_schema false has_schema limit doc parameters raising
       type_handler doc_handler
     = function_to_schema false has_schema' limit doc parameters raising
         type_handler doc_handler).
Proof.
  assert (Hsame : same_answers
            (__init__ false has_schema raising type_handler doc_handler)
            (__init__ false has_schema' raising type_handler doc_handler)).
  { repeat split. }
  split.
  - intros object. unfold typing_to_schema.
    now rewrite (_convert_core_same _ _ limit Hsame).
  - intros doc parameters. unfold function_to_schema, _convert_function.
    rewrite (function_loop_same _ _ _ _ Hsame
               (_convert_core_same _ _ limit Hsame)).
    reflexivity.
Qed.

(** X11. A type handler that answers every annotation with [None] or with
    an empty schema changes nothing: the results are those of a call
    without type handler. *)
Theorem falsy_type_handler (found : bool) (has_schema : pytype -> option dict)
    (limit : nat) (raising : bool) (handler : pytype -> option dict)
    (doc_handler : option (pytype * list value -> option string)) :
  (forall object, handler object = None \/ handler object = Some []) ->
  (forall object,
     typing_to_schema found has_schema limit object raising (Some handler)
       doc_handler
     = typing_to_schema found has_schema limit object raising None
         doc_handler) /\
  (forall doc parameters,
     function_to_schema found has_schema limit doc parameters raising
       (Some handler) doc_handler
     = function_to_schema found has_schema limit doc parameters raising
         None doc_handler).
Proof.
  intros Hfalsy.
  assert (Hsame : same_answers
            (__init__ found has_schema raising (Some handler) doc_handler)
            (__init__ found has_schema raising None doc_handler)).
  { repeat split. intros object. unfold custom_schema. cbn.
    now destruct (Hfalsy object) as [-> | ->]. }
  split.
  - intros object. unfold typing_to_schema.
    now rewrite (_convert_core_same _ _ limit Hsame).
  - intros doc parameters. unfold function_to_schema, _convert_function.
    rewrite (function_loop_same _ _ _ _ Hsame
               (_convert_core_same _ _ limit Hsame)).
    reflexivity.
Qed.

Lemma falsy_type_handler_witness :
  typing_to_schema false (fun _ => None) 3 Row true
    (Some (fun object => match object with
                         | Tint => Some []
                         | _ => None
                         end)) None
  = typing_to_schema false (fun _ => None) 3 Row true None None.
Proof.
  destruct (falsy_type_handler false (fun _ => None) 3 true
              (fun object => match object with
                             | Tint => Some []
                             | _ => None
                             end) None) as [Htype _].
  - intros object. destruct object; auto.
  - apply Htype.
Defined.

(** ** Order of the parameters *)

(** X12. The object schema of a callable keeps the order of the signature:
    [properties] holds the parameters that are not passed over, in that
    order, and [required] the names of those among them that are required
    and have no default, in that order and each once. *)
Theorem function_schema_in_order (self : _Converter)
    (core : pytype -> result (dict * bool)) (doc : option string)
    (parameters : list param) (conv : param -> dict * bool) :
  NoDup (map name parameters) ->
  (forall p, In p parameters -> ~ variadic_or_self p ->
     exists ann, declared_type p = Some ann /\ core ann = Ok (conv p)) ->
  let kept := filter (fun p => negb (skipped p)) parameters in
  let named := filter (listed conv) parameters in
  _convert_function self core doc parameters
  = Ok (with_doc doc
          [("type", VStr "object");
           ("properties", VDict (map (entry conv) kept));
           ("required", VList (map (fun p => VStr (name p)) named))], true) /\
  NoDup (map name named).
Proof.
  intros Hnd Hconv kept named. split.
  - unfold _convert_function.
    rewrite (function_loop_appends self core conv parameters Hnd);
      [reflexivity | | auto].
    intros p Hp Hs. apply Hconv; [exact Hp|].
    now apply not_skipped_variadic_or_self.
  - now apply NoDup_key_filter.
Qed.

Lemma function_schema_in_order_witness :
  _convert_function default_Converter (_convert_core default_Converter 1)
    None handler_parameters
  = Ok ([("type", VStr "object");
         ("properties",
          VDict [("a", VDict [("type", VStr "integer")]);
                 ("b", VDict [("type", VStr "string");
                              ("default", VStr "x")])]);
         ("required", VList [VStr "a"])], true).
Proof.
  destruct (function_schema_in_order default_Converter
              (_convert_core default_Converter 1) None handler_parameters
              (fun p => if String.eqb (name p) "a"
                        then ([("type", VStr "integer")], true)
                        else ([("type", VStr "string")], true)))
    as [Hres _].
  - repeat constructor; cbn; intuition discriminate.
  - intros p [<-|[<-|[]]] _; eexists; split; reflexivity.
  - exact Hres.
Defined.

(** ** Docstrings and annotated types *)

Lemma dict_has_set (k k' : string) (v : value) (d : dict) :
  dict_has k d = true -> dict_has k (dict_set k' v d) = true.
Proof.
  induction d as [|[k0 v0] d IH]; cbn; [discriminate|].
  destruct (String.eqb k' k0); cbn; destruct (String.eqb k k0); auto.
Qed.

Lemma dict_has_set_same (k : string) (v : value) (d : dict) :
  dict_has k (dict_set k v d) = true.
Proof.
  induction d as [|[k0 v0] d IH]; cbn.
  - now rewrite String.eqb_refl.
  - destruct (String.eqb k k0) eqn:E; cbn; now rewrite E.
Qed.

(** X13. The docstring of a TypedDict, dataclass or callable wins over the
    documentation of an [Annotated] that wraps it: when the docstring is not
    empty, the annotated type converts to exactly what the wrapped type
    converts to, whatever the metadata and the doc handler. *)
Theorem docstring_wins (self : _Converter) (depth : nat)
    (inner : pytype) (metadata : list value) (d : string)
    (schema : dict) (required : bool) :
  (exists annotations, inner = TRecord (Some d) annotations) \/
  (exists parameters, inner = TCallable (Some d) parameters) ->
  d <> "" ->
  unclaimed self inner ->
  unclaimed self (TAnnotated inner metadata) ->
  _convert_core self depth inner = Ok (schema, required) ->
  _convert_core self (S depth) (TAnnotated inner metadata)
  = Ok (schema, required).
Proof.
  intros Hinner Hd [Hc Hp] Hun Hconv.
  assert (Hhas : dict_has "description" schema = true).
  { destruct depth as [|depth]; [discriminate|].
    rewrite _convert_core_S in Hconv. unfold convert_node in Hconv.
    rewrite Hc, Hp in Hconv.
    assert (Hdoc : forall obj_schema,
              dict_has "description" (with_doc (Some d) obj_schema) = true).
    { intros obj_schema. unfold with_doc.
      destruct d as [|c d]; [congruence|]. cbn [truthy_str].
      apply dict_has_set_same. }
    destruct Hinner as [[annotations ->]|[parameters ->]].
    - destruct (record_loop _ annotations [] []) as [pr|e];
        cbn [bind] in Hconv; [|discriminate].
      injection Hconv as <- _.
      exact (Hdoc (ObjectSchema (fst pr) (snd pr))).
    - unfold _convert_function in Hconv.
      destruct (function_loop _ _ parameters [] []) as [pr|e];
        cbn [bind] in Hconv; [|discriminate].
      injection Hconv as <- _.
      exact (Hdoc (ObjectSchema (fst pr) (snd pr))). }
  core_step Hun. cbn [fst]. rewrite Hconv. cbn [bind fst snd].
  now rewrite Hhas.
Qed.

Lemma docstring_wins_witness :
  _convert_core default_Converter 4 annotated_Row
  = _convert_core default_Converter 3 Row /\
  exists schema,
    _convert_core default_Converter 4 annotated_Row = Ok (schema, true) /\
    dict_get "description" schema = Some (VStr "A row").
Proof.
  assert (H : _convert_core default_Converter 3 Row
              = Ok ([("type", VStr "object");
                     ("properties",
                      VDict [("a", VDict [("type", VStr "integer")]);
                             ("b", VDict [("type", VList [VStr "string";
                                                          VStr "null"])])]);
                     ("required", VList [VStr "a"]);
                     ("description", VStr "A row")], true))
    by reflexivity.
  assert (E : _convert_core default_Converter 4 annotated_Row
              = Ok ([("type", VStr "object");
                     ("properties",
                      VDict [("a", VDict [("type", VStr "integer")]);
                             ("b", VDict [("type", VList [VStr "string";
                                                          VStr "null"])])]);
                     ("required", VList [VStr "a"]);
                     ("description", VStr "A row")], true)).
  { apply (docstring_wins default_Converter 3 Row
             [VStr "The row to insert"] "A row").
    - left. eexists; reflexivity.
    - discriminate.
    - apply default_unclaimed.
    - apply default_unclaimed.
    - exact H. }
  split; [now rewrite E, H|].
  eexists. split; [exact E | reflexivity].
Defined.

(** ** What every result has *)

(** X14. Only a NoneType, a union, an [Annotated] or an empty [Literal] can
    be reported as not required: whatever else is converted (a primitive,
    an array, a dict, an enum, a non-empty literal, a record, a callable, an
    object taken by the type handler or the delegate, or one that fits no
    rule) is reported as required. *)
Theorem required_unless_optional (self : _Converter) (depth : nat)
    (object : pytype) (schema : dict) (required : bool) :
  may_be_optional object = false ->
  _convert_core self depth object = Ok (schema, required) ->
  required = true.
Proof.
  intros Hobj Hconv. destruct depth as [|depth]; [discriminate|].
  rewrite _convert_core_S in Hconv. unfold convert_node in Hconv.
  destruct (custom_schema self object); [now injection Hconv|].
  destruct (pydantic_schema self object); [now injection Hconv|].
  destruct object as [| | | | | | |args|o args|inner metadata|args|values
                      |doc annotations|doc parameters|repr];
    cbn in Hobj; try discriminate; try (now injection Hconv).
  - destruct (_convert_union _ args) as [r|e];
      destruct o; cbn [bind] in Hconv; try discriminate;
      now injection Hconv.
  - destruct args as [|v [|w args]]; [discriminate | |];
      now injection Hconv.
  - destruct (record_loop _ annotations [] []) as [pr|e];
      cbn [bind] in Hconv; [now injection Hconv | discriminate].
  - unfold _convert_function in Hconv.
    destruct (function_loop _ _ parameters [] []) as [pr|e];
      cbn [bind] in Hconv; [now injection Hconv | discriminate].
  - destruct (_raise_when_unsupported self);
      [discriminate | now injection Hconv].
Qed.

(** [list[int | None]]: the array is required. *)
Lemma required_unless_optional_witness :
  _convert_core default_Converter 3 (TGeneric Olist [TUnion [Tint; TNoneType]])
  = Ok ([("type", VStr "array");
         ("items", VDict [("type", VList [VStr "integer"; VStr "null"])])],
        true) /\
  true = true.
Proof.
  split; [reflexivity|].
  apply (required_unless_optional default_Converter 3
           (TGeneric Olist [TUnion [Tint; TNoneType]])
           [("type", VStr "array");
            ("items", VDict [("type", VList [VStr "integer"; VStr "null"])])]
           true); reflexivity.
Defined.

Lemma has_keyword_set (k : string) (v : value) (s : dict) :
  has_keyword s = true -> has_keyword (dict_set k v s) = true.
Proof.
  unfold has_keyword. intros H.
  repeat (apply orb_prop in H as [H|H]);
    rewrite (dict_has_set _ k v s H); cbn; now rewrite ?orb_true_r.
Qed.

Lemma has_keyword_with_doc (doc : option string) (s : dict) :
  has_keyword s = true -> has_keyword (with_doc doc s) = true.
Proof.
  intros H. unfold with_doc. destruct doc as [d|]; [|exact H].
  destruct (truthy_str (Some d)); [now apply has_keyword_set | exact H].
Qed.

(** X15. Provided that the schemas the type handler and the delegate hand
    out have one of the keywords [type], [const], [enum] and [oneOf], every
    schema the conversion returns has one; in particular none is the empty
    schema. *)
Theorem schema_has_keyword (self : _Converter) (depth : nat) :
  (forall object schema, custom_schema self object = Some schema ->
     has_keyword schema = true) ->
  (forall object schema, pydantic_schema self object = Some schema ->
     has_keyword schema = true) ->
  forall object schema required,
  _convert_core self depth object = Ok (schema, required) ->
  has_keyword schema = true.
Proof.
  intros Hcustom Hpydantic.
  induction depth as [|depth IH]; intros object schema required Hconv;
    [discriminate|].
  rewrite _convert_core_S in Hconv. unfold convert_node in Hconv.
  destruct (custom_schema self object) as [s|] eqn:Hc.
  { injection Hconv as <- _. now apply (Hcustom object). }
  destruct (pydantic_schema self object) as [s|] eqn:Hp.
  { injection Hconv as <- _. now apply (Hpydantic object). }
  assert (Hunion : forall args s r,
            _convert_union (_convert_core self depth) args = Ok (s, r) ->
            has_keyword s = true).
  { intros args s r Hu. unfold _convert_union in Hu.
    destruct args as [|a [|b args]].
    - now injection Hu as <- _.
    - destruct (_convert_core self depth a) as [[sa ra]|e] eqn:Ha;
        cbn in Hu; [|discriminate].
      injection Hu as <- _. now apply (IH a sa ra).
    - destruct (mapM _ (a :: b :: args)) as [schemas|e];
        cbn [bind] in Hu; [|discriminate].
      destruct (forallb has_scalar_type schemas).
      + destruct (mapM (getitem "type") schemas) as [types|e];
          cbn [bind] in Hu; [|discriminate].
        now injection Hu as <- _.
      + now injection Hu as <- _. }
  destruct object as [| | | | | | |args|o args|inner metadata|args|values
                      |doc annotations|doc parameters|repr];
    try (now injection Hconv as <- _).
  - now apply (Hunion args schema required).
  - destruct (_convert_union _ args) as [[s r]|e] eqn:Hu;
      destruct o; cbn [bind] in Hconv; try discriminate;
      now injection Hconv as <- _.
  - cbn [fst] in Hconv.
    destruct (_convert_core self depth inner) as [[s r]|e] eqn:Hi;
      cbn [bind fst snd] in Hconv; [|discriminate].
    pose proof (IH inner s r Hi) as Hs.
    destruct (negb (dict_has "description" s));
      [|now injection Hconv as <- _].
    destruct (to_doc self (inner, metadata)) as [d|];
      [|now injection Hconv as <- _].
    destruct (truthy_str (Some d)); injection Hconv as <- _;
      [now apply has_keyword_set | exact Hs].
  - destruct args as [|v [|w args]]; now injection Hconv as <- _.
  - destruct (record_loop _ annotations [] []) as [pr|e];
      cbn [bind] in Hconv; [|discriminate].
    injection Hconv as <- _. now apply has_keyword_with_doc.
  - unfold _convert_function in Hconv.
    destruct (function_loop _ _ parameters [] []) as [pr|e];
      cbn [bind] in Hconv; [|discriminate].
    injection Hconv as <- _. now apply has_keyword_with_doc.
  - destruct (_raise_when_unsupported self); [discriminate|].
    now injection Hconv as <- _.
Qed.

Lemma schema_has_keyword_witness :
  exists schema,
    _convert_core default_Converter 3 Row = Ok (schema, true) /\
    has_keyword schema = true.
Proof.
  eexists. split; [reflexivity|].
  apply (schema_has_keyword default_Converter 3) with (object := Row)
                                                     (required := true);
    [discriminate | discriminate | reflexivity].
Defined.
